(** * sign-android-release: the signing pipeline of [src/signing.ts]

    A shallow embedding of [signing.ts] and the properties of its file
    naming, argument lists and failure behaviour.

    - JavaScript strings are modelled as [string], a sequence of code
      units (8-bit ones here);
      [String.prototype.replace] with a string pattern follows
      ECMAScript: [StringIndexOf] finds the first occurrence and
      [GetSubstitution] expands the replacement template.
    - The effects of the program ([core.debug], [core.setFailed],
      [exec.exec], [io.which], [fs.existsSync], [process.env],
      [core.getInput], exceptions) are modelled by a state-and-exception
      monad [Action] over a trace of events; the outside world (the
      environment variables, the file system, what a spawned process
      answers) is a record [World] every theorem quantifies over. *)

From Stdlib Require Import String Ascii List Arith Bool Lia.
Import ListNotations.
Local Open Scope list_scope.
Local Open Scope string_scope.

Set Implicit Arguments.

(** ** JavaScript strings *)

Module JS.

(** [ToBoolean] on a string: only the empty string is falsy. *)
Definition truthy (s : string) : bool :=
  match s with
  | EmptyString => false
  | String _ _ => true
  end.

(** [ToBoolean] on [string | undefined]. *)
Definition truthy_opt (o : option string) : bool :=
  match o with
  | None => false
  | Some s => truthy s
  end.

(** [a || b || c] where [a] is a string, [b] is [string | undefined] and
    [c] a string: the first truthy operand, else the last one. *)
Definition or3 (a : string) (b : option string) (c : string) : string :=
  if truthy a then a
  else match b with
       | Some s => if truthy s then s else c
       | None => c
       end.

(** [StringIndexOf(s, pat, 0)]: the smallest index at which [pat] occurs
    in [s]. *)
Fixpoint StringIndexOf (s pat : string) : option nat :=
  if prefix pat s then Some 0
  else match s with
       | EmptyString => None
       | String _ s' => option_map S (StringIndexOf s' pat)
       end.

(** The substring of [s] from index [n] to its end. *)
Fixpoint substringFrom (n : nat) (s : string) : string :=
  match n, s with
  | 0, _ => s
  | S _, EmptyString => EmptyString
  | S n', String _ s' => substringFrom n' s'
  end.

(** [GetSubstitution] for a match of a string pattern (no captures, no
    named groups): [$$] is a dollar sign, [$&] the matched text,
    [$`] the text before the match, [$'] the text after it; every
    other code unit, a dollar sign that starts none of these included,
    stands for itself. *)
Fixpoint GetSubstitution (matched before after template : string) : string :=
  match template with
  | EmptyString => EmptyString
  | String c tl =>
      if Ascii.eqb c "$" then
        match tl with
        | EmptyString => String c EmptyString
        | String d rest =>
            if Ascii.eqb d "$" then
              String "$" (GetSubstitution matched before after rest)
            else if Ascii.eqb d "`" then
              before ++ GetSubstitution matched before after rest
            else if Ascii.eqb d "&" then
              matched ++ GetSubstitution matched before after rest
            else if Ascii.eqb d "'" then
              after ++ GetSubstitution matched before after rest
            else
              String c (String d (GetSubstitution matched before after rest))
        end
      else String c (GetSubstitution matched before after tl)
  end.

(** [s.replace(pat, template)] for a string [pat]: the first occurrence
    of [pat] is replaced by the expansion of [template]; a string without
    an occurrence is returned as it is. *)
Definition replace (s pat template : string) : string :=
  match StringIndexOf s pat with
  | None => s
  | Some pos =>
      let preceding := substring 0 pos s in
      let following := substringFrom (pos + String.length pat) s in
      preceding ++ GetSubstitution pat preceding following template ++ following
  end.

(** [s.includes(pat)]. *)
Definition includes (s pat : string) : bool :=
  match StringIndexOf s pat with
  | Some _ => true
  | None => false
  end.

End JS.

(** ** Effects: the actions toolkit, the file system and the processes *)

Module Actions.

(** A JavaScript [Error] object; the program only reads its [message]. *)
Record Error : Type := mkError { message : string }.

(** What a run leaves behind, in the order it happened: a debug line, the
    failure message set on the action, a spawned process with its command
    line and its argument list. *)
Inductive Event : Type :=
| Debug (msg : string)
| SetFailed (msg : string)
| Exec (commandLine : string) (args : list string).

(** The world outside the program. [getInput] is [core.getInput] (the
    empty string for an input that was not given), [env] is
    [process.env], [existsSync] is [fs.existsSync], [join] is the
    platform's [path.join], [which] is [io.which(tool, true)] (it throws
    when the tool is not on the PATH), and [spawn] tells how a process
    started by [exec.exec] ends after the events so far: [None] for exit
    code 0, [Some e] when [exec.exec] rejects with [e]. *)
Record World : Type := mkWorld {
  getInput : string -> string;
  env : string -> option string;
  existsSync : string -> bool;
  join : string -> string -> string;
  which : string -> Error + string;
  spawn : list Event -> string -> list string -> option Error
}.

Inductive Result (A : Type) : Type :=
| Ok (a : A)
| Throw (e : Error).
Arguments Throw {A} e.

(** A computation reads the world, extends the trace of events and
    returns or throws. *)
Definition Action (A : Type) : Type :=
  World -> list Event -> list Event * Result A.

Definition ret {A} (a : A) : Action A := fun _ t => (t, Ok a).

Definition bind {A B} (m : Action A) (k : A -> Action B) : Action B :=
  fun w t =>
    match m w t with
    | (t', Ok a) => k a w t'
    | (t', Throw e) => (t', Throw e)
    end.

Definition throw {A} (e : Error) : Action A := fun _ t => (t, Throw e).

(** [try { body } catch (error) { handler error }]. *)
Definition try_catch {A} (body : Action A) (handler : Error -> Action A) : Action A :=
  fun w t =>
    match body w t with
    | (t', Ok a) => (t', Ok a)
    | (t', Throw e) => handler e w t'
    end.

Definition emit (e : Event) : Action unit := fun _ t => ((t ++ [e])%list, Ok tt).

Definition core_debug (msg : string) : Action unit := emit (Debug msg).
Definition core_setFailed (msg : string) : Action unit := emit (SetFailed msg).
Definition core_getInput (name : string) : Action string :=
  fun w t => (t, Ok (getInput w name)).
Definition process_env (name : string) : Action (option string) :=
  fun w t => (t, Ok (env w name)).
Definition fs_existsSync (p : string) : Action bool :=
  fun w t => (t, Ok (existsSync w p)).
Definition path_join (a b : string) : Action string :=
  fun w t => (t, Ok (join w a b)).
Definition io_which (tool : string) : Action string :=
  fun w t =>
    match which w tool with
    | inr p => (t, Ok p)
    | inl e => (t, Throw e)
    end.

(** [exec.exec(commandLine, args)]: the process is spawned (and recorded)
    and the promise rejects when it does not end with exit code 0. *)
Definition exec_exec (commandLine : string) (args : list string) : Action unit :=
  fun w t =>
    match spawn w t commandLine args with
    | None => ((t ++ [Exec commandLine args])%list, Ok tt)
    | Some e => ((t ++ [Exec commandLine args])%list, Throw e)
    end.

(** The processes a trace spawned. *)
Definition is_exec (e : Event) : bool :=
  match e with
  | Exec _ _ => true
  | _ => false
  end.

Definition spawned (t : list Event) : list Event := filter is_exec t.

End Actions.

Declare Scope action_scope.
Delimit Scope action_scope with action.
Notation "x <- m ;; k" := (Actions.bind m (fun x => k))
  (at level 61, m at next level, right associativity) : action_scope.
Notation "m ;;; k" := (Actions.bind m (fun _ => k))
  (at level 61, right associativity) : action_scope.

(** ** signing.ts *)

Module Signing.
Import Actions.
Local Open Scope action_scope.

(** The double quote of the template literals ["${tool}"]. *)
Definition dquote : string := String "034"%char EmptyString.

Definition quoted (tool : string) : string := dquote ++ tool ++ dquote.

(** A [string | undefined] that the code has checked to be truthy. *)
Definition narrowed (o : option string) : string :=
  match o with
  | Some s => s
  | None => EmptyString
  end.

Definition getBuildToolsPath : Action string :=
  input <- core_getInput "buildToolsVersion" ;;
  fallback <- process_env "ANDROID_BUILD_TOOLS_VERSION" ;;
  let buildToolsVersion := JS.or3 input fallback "35.0.0" in
  androidHome <- process_env "ANDROID_HOME" ;;
  if negb (JS.truthy_opt androidHome) then
    throw (mkError "ANDROID_HOME environment variable is not set.")
  else
    buildToolsPath <- path_join (narrowed androidHome)
                                ("build-tools/" ++ buildToolsVersion) ;;
    found <- fs_existsSync buildToolsPath ;;
    if negb found then
      throw (mkError ("Couldn't find the Android build tools @ " ++ buildToolsPath))
    else ret buildToolsPath.

Definition alignApkFile (apkFile zipAlign : string) : Action string :=
  let alignedApkFile := JS.replace apkFile ".apk" "-aligned.apk" in
  exec_exec (quoted zipAlign) ["-c"; "-v"; "4"; apkFile] ;;;
  exec_exec (quoted "cp") [apkFile; alignedApkFile] ;;;
  ret alignedApkFile.

(** The argument list [signFile] hands to the signer. *)
Definition signFile_args (fileToSign signingKeyFile alias keyStorePassword : string)
           (keyPassword : option string) (signedFile : string) : list string :=
  (["sign";
    "--ks"; signingKeyFile;
    "--ks-key-alias"; alias;
    "--ks-pass"; ("pass:" ++ keyStorePassword)%string;
    "--out"; signedFile]
   ++ (if JS.truthy_opt keyPassword
       then ["--key-pass"; ("pass:" ++ narrowed keyPassword)%string]
       else [])
   ++ [fileToSign])%list.

Definition signFile (signerPath fileToSign signingKeyFile alias keyStorePassword : string)
           (keyPassword : option string) (originalFile fileExtension : string)
  : Action string :=
  let signedFile := JS.replace originalFile ".apk" fileExtension in
  let args := signFile_args fileToSign signingKeyFile alias keyStorePassword
                            keyPassword signedFile in
  exec_exec (quoted signerPath) args ;;;
  ret signedFile.

Definition verifySignedFile (signerPath signedFile : string) : Action unit :=
  exec_exec (quoted signerPath) ["verify"; signedFile].

Definition signApkFile (apkFile signingKeyFile alias keyStorePassword : string)
           (keyPassword : option string) : Action string :=
  try_catch
    (core_debug "Zipaligning APK file" ;;;
     buildToolsPath <- getBuildToolsPath ;;
     zipAlign <- path_join buildToolsPath "zipalign" ;;
     core_debug ("Found 'zipalign' @ " ++ zipAlign) ;;;
     alignedApkFile <- alignApkFile apkFile zipAlign ;;
     core_debug "Signing APK file" ;;;
     apkSigner <- path_join buildToolsPath "apksigner" ;;
     core_debug ("Found 'apksigner' @ " ++ apkSigner) ;;;
     signedApkFile <- signFile apkSigner alignedApkFile signingKeyFile alias
                               keyStorePassword keyPassword apkFile "-signed.apk" ;;
     core_debug "Verifying Signed APK" ;;;
     verifySignedFile apkSigner signedApkFile ;;;
     ret signedApkFile)
    (fun error =>
       core_setFailed ("Failed to sign APK file: " ++ message error) ;;;
       throw error).

(** The argument list [signAabFile] hands to jarsigner. *)
Definition signAabFile_args (aabFile signingKeyFile alias keyStorePassword : string)
           (keyPassword : option string) : list string :=
  (["-keystore"; signingKeyFile;
    "-storepass"; keyStorePassword]
   ++ (if JS.truthy_opt keyPassword
       then ["-keypass"; narrowed keyPassword]
       else [])
   ++ [aabFile; alias])%list.

Definition signAabFile (aabFile signingKeyFile alias keyStorePassword : string)
           (keyPassword : option string) : Action string :=
  try_catch
    (core_debug "Signing AAB file" ;;;
     jarSignerPath <- io_which "jarsigner" ;;
     core_debug ("Found 'jarsigner' @ " ++ jarSignerPath) ;;;
     let args := signAabFile_args aabFile signingKeyFile alias keyStorePassword
                                  keyPassword in
     exec_exec (quoted jarSignerPath) args ;;;
     ret aabFile)
    (fun error =>
       core_setFailed ("Failed to sign AAB file: " ++ message error) ;;;
       throw error).

(** The two derived file names of the APK pipeline, as [alignApkFile] and
    [signFile] (called by [signApkFile]) compute them. *)
Definition alignedName (apkFile : string) : string :=
  JS.replace apkFile ".apk" "-aligned.apk".

Definition signedName (apkFile : string) : string :=
  JS.replace apkFile ".apk" "-signed.apk".

End Signing.

(** ** A sample world, to run the program in *)

Module Sample.
Import Actions.

(** An SDK at [/sdk] with build tools 35.0.0, jarsigner on the PATH and
    processes that all end with exit code 0. *)
Definition world : World :=
  {| getInput := fun _ => EmptyString;
     env := fun name => if String.eqb name "ANDROID_HOME" then Some "/sdk" else None;
     existsSync := fun p => String.eqb p "/sdk/build-tools/35.0.0";
     join := fun a b => a ++ "/" ++ b;
     which := fun tool => inr ("/usr/bin/" ++ tool);
     spawn := fun _ _ _ => None |}.

(** The same machine without [ANDROID_HOME]. *)
Definition world_no_home : World :=
  {| getInput := fun _ => EmptyString;
     env := fun _ => None;
     existsSync := fun p => String.eqb p "/sdk/build-tools/35.0.0";
     join := fun a b => a ++ "/" ++ b;
     which := fun tool => inr ("/usr/bin/" ++ tool);
     spawn := fun _ _ _ => None |}.

(** The same machine with build tools 34.0.0 asked for, which are not
    installed. *)
Definition world_no_tools : World :=
  {| getInput := fun name =>
       if String.eqb name "buildToolsVersion" then "34.0.0" else EmptyString;
     env := fun name => if String.eqb name "ANDROID_HOME" then Some "/sdk" else None;
     existsSync := fun p => String.eqb p "/sdk/build-tools/35.0.0";
     join := fun a b => a ++ "/" ++ b;
     which := fun tool => inr ("/usr/bin/" ++ tool);
     spawn := fun _ _ _ => None |}.

End Sample.

(** ** Vocabulary of the properties *)

Module Spec.
Import Actions.

(** [pat] occurs in [s] right after [pre]. *)
Definition OccursAfter (pat pre s : string) : Prop :=
  exists post, s = pre ++ pat ++ post.

(** [pat] occurs in [s] after [pre] and nowhere earlier: this is the
    first occurrence of [pat] in [s]. *)
Definition FirstAfter (pat pre s : string) : Prop :=
  OccursAfter pat pre s /\
  forall pre', OccursAfter pat pre' s -> String.length pre <= String.length pre'.

(** [part] is a substring of [s]. *)
Definition Contains (s part : string) : Prop :=
  exists pre, OccursAfter part pre s.

(** The events a run added to the trace [t] it started from. *)
Definition emitted (t t' : list Event) : list Event := skipn (List.length t) t'.

(** The flag [flag] is directly followed by [value] in an argument list. *)
Fixpoint has_pair (flag value : string) (args : list string) : bool :=
  match args with
  | a :: rest =>
      match rest with
      | b :: _ => (String.eqb a flag && String.eqb b value) || has_pair flag value rest
      | [] => false
      end
  | [] => false
  end.

(** The string [flag] is one of the arguments. *)
Definition has_arg (flag : string) (args : list string) : bool :=
  existsb (String.eqb flag) args.

(** The build-tools version the program resolves in a world, and the
    directory it expects the build tools in. *)
Definition buildToolsVersion (w : World) : string :=
  JS.or3 (getInput w "buildToolsVersion") (env w "ANDROID_BUILD_TOOLS_VERSION") "35.0.0".

Definition expectedBuildToolsPath (w : World) : string :=
  join w (Signing.narrowed (env w "ANDROID_HOME"))
       ("build-tools/" ++ buildToolsVersion w).

Definition zipAlignPath (w : World) : string :=
  join w (expectedBuildToolsPath w) "zipalign".

Definition apkSignerPath (w : World) : string :=
  join w (expectedBuildToolsPath w) "apksigner".

(** The four processes of the APK pipeline, in order. *)
Definition checkProcess (zipAlign apkFile : string) : Event :=
  Exec (Signing.quoted zipAlign) ["-c"; "-v"; "4"; apkFile].

Definition copyProcess (apkFile : string) : Event :=
  Exec (Signing.quoted "cp") [apkFile; Signing.alignedName apkFile].

Definition signProcess (w : World) (apkFile signingKeyFile alias keyStorePassword : string)
           (keyPassword : option string) : Event :=
  Exec (Signing.quoted (apkSignerPath w))
       (Signing.signFile_args (Signing.alignedName apkFile) signingKeyFile alias
                              keyStorePassword keyPassword (Signing.signedName apkFile)).

Definition verifyProcess (w : World) (apkFile : string) : Event :=
  Exec (Signing.quoted (apkSignerPath w)) ["verify"; Signing.signedName apkFile].

Definition apkProcesses (w : World) (apkFile signingKeyFile alias keyStorePassword : string)
           (keyPassword : option string) : list Event :=
  [checkProcess (zipAlignPath w) apkFile;
   copyProcess apkFile;
   signProcess w apkFile signingKeyFile alias keyStorePassword keyPassword;
   verifyProcess w apkFile].

(** Everything a run of [signApkFile] records when nothing fails. *)
Definition apkScript (w : World) (apkFile signingKeyFile alias keyStorePassword : string)
           (keyPassword : option string) : list Event :=
  [Debug "Zipaligning APK file";
   Debug ("Found 'zipalign' @ " ++ zipAlignPath w);
   checkProcess (zipAlignPath w) apkFile;
   copyProcess apkFile;
   Debug "Signing APK file";
   Debug ("Found 'apksigner' @ " ++ apkSignerPath w);
   signProcess w apkFile signingKeyFile alias keyStorePassword keyPassword;
   Debug "Verifying Signed APK";
   verifyProcess w apkFile].

(** What the [catch] block of [signApkFile] records for the error [e]. *)
Definition apkFailure (e : Error) : Event :=
  SetFailed ("Failed to sign APK file: " ++ message e).

(** Every process the world is asked to run ends with exit code 0. *)
Definition all_processes_succeed (w : World) : Prop :=
  forall t commandLine args, spawn w t commandLine args = None.

(** The processes [signApkFile] spawns for [apkFile] on the sample
    machine, started with an empty trace and without a key password. *)
Definition spawned_by_sample_apk_run (apkFile : string) : list Event :=
  spawned (fst (Signing.signApkFile apkFile "key.jks" "release" "storepw" None
                                    Sample.world [])).

End Spec.

(** ** Vocabulary of the pipeline stages *)

Module Stages.
Import Actions.

(** The trace at the moment each process of the APK pipeline is spawned,
    for a run started at [t] that got that far. *)
Definition beforeCheck (w : World) (t : list Event) : list Event :=
  (t ++ [Debug "Zipaligning APK file";
         Debug ("Found 'zipalign' @ " ++ Spec.zipAlignPath w)])%list.

Definition beforeCopy (w : World) (t : list Event) (apkFile : string) : list Event :=
  (beforeCheck w t ++ [Spec.checkProcess (Spec.zipAlignPath w) apkFile])%list.

Definition beforeSign (w : World) (t : list Event) (apkFile : string) : list Event :=
  (beforeCopy w t apkFile
   ++ [Spec.copyProcess apkFile;
       Debug "Signing APK file";
       Debug ("Found 'apksigner' @ " ++ Spec.apkSignerPath w)])%list.

Definition beforeVerify (w : World) (t : list Event)
           (apkFile signingKeyFile alias keyStorePassword : string)
           (keyPassword : option string) : list Event :=
  (beforeSign w t apkFile
   ++ [Spec.signProcess w apkFile signingKeyFile alias keyStorePassword keyPassword;
       Debug "Verifying Signed APK"])%list.

(** How each of the four processes ends in such a run. *)
Definition checkOutcome (w : World) (t : list Event) (apkFile : string) : option Error :=
  spawn w (beforeCheck w t) (Signing.quoted (Spec.zipAlignPath w))
        ["-c"; "-v"; "4"; apkFile].

Definition copyOutcome (w : World) (t : list Event) (apkFile : string) : option Error :=
  spawn w (beforeCopy w t apkFile) (Signing.quoted "cp")
        [apkFile; Signing.alignedName apkFile].

Definition signOutcome (w : World) (t : list Event)
           (apkFile signingKeyFile alias keyStorePassword : string)
           (keyPassword : option string) : option Error :=
  spawn w (beforeSign w t apkFile) (Signing.quoted (Spec.apkSignerPath w))
        (Signing.signFile_args (Signing.alignedName apkFile) signingKeyFile alias
                               keyStorePassword keyPassword (Signing.signedName apkFile)).

Definition verifyOutcome (w : World) (t : list Event)
           (apkFile signingKeyFile alias keyStorePassword : string)
           (keyPassword : option string) : option Error :=
  spawn w (beforeVerify w t apkFile signingKeyFile alias keyStorePassword keyPassword)
        (Signing.quoted (Spec.apkSignerPath w))
        ["verify"; Signing.signedName apkFile].

(** The failures a trace reports through [core.setFailed]. *)
Definition is_failure (e : Event) : bool :=
  match e with
  | SetFailed _ => true
  | _ => false
  end.

Definition failures (t : list Event) : list Event := filter is_failure t.

(** What the [catch] block of [signAabFile] records for the error [e]. *)
Definition aabFailure (e : Error) : Event :=
  SetFailed ("Failed to sign AAB file: " ++ message e).

(** The original name read back from a derived name. *)
Definition fromAligned (name : string) : string :=
  JS.replace name "-aligned.apk" ".apk".

Definition fromSigned (name : string) : string :=
  JS.replace name "-signed.apk" ".apk".

End Stages.

(** ** Machines on which a process fails *)

Module Faulty.
Import Actions.

(** [exec.exec] rejects with this error when a process exits with 1. *)
Definition exitCode1 : Error := mkError "The process failed with exit code 1".

(** The sample machine, except that every process whose first argument
    is [first] exits with 1. *)
Definition world (first : string) : World :=
  {| getInput := getInput Sample.world;
     env := env Sample.world;
     existsSync := existsSync Sample.world;
     join := join Sample.world;
     which := which Sample.world;
     spawn := fun _ _ args =>
       match args with
       | a :: _ => if String.eqb a first then Some exitCode1 else None
       | [] => None
       end |}.

(** The sample machine without jarsigner on the PATH. *)
Definition world_no_jarsigner : World :=
  {| getInput := getInput Sample.world;
     env := env Sample.world;
     existsSync := existsSync Sample.world;
     join := join Sample.world;
     which := fun tool => inl (mkError ("Unable to locate executable file: " ++ tool));
     spawn := spawn Sample.world |}.

(** The sample machine with [ANDROID_HOME] set to the empty string. *)
Definition world_empty_home : World :=
  {| getInput := getInput Sample.world;
     env := fun name => if String.eqb name "ANDROID_HOME" then Some "" else None;
     existsSync := fun _ => true;
     join := join Sample.world;
     which := which Sample.world;
     spawn := spawn Sample.world |}.

(** A machine with build tools 33.0.2 and 34.0.0 installed, where the
    action input asks for 33.0.2 and the environment for 34.0.0. *)
Definition world_two_versions : World :=
  {| getInput := fun name =>
       if String.eqb name "buildToolsVersion" then "33.0.2" else EmptyString;
     env := fun name =>
       if String.eqb name "ANDROID_HOME" then Some "/sdk"
       else if String.eqb name "ANDROID_BUILD_TOOLS_VERSION" then Some "34.0.0"
       else None;
     existsSync := fun p => String.eqb p "/sdk/build-tools/33.0.2"
                            || String.eqb p "/sdk/build-tools/34.0.0";
     join := join Sample.world;
     which := which Sample.world;
     spawn := spawn Sample.world |}.

End Faulty.

(** ** What the program derives from a path *)

Module Derivation.
Import Actions.

(** The align stage run on [path] copies it to [aligned] and returns
    [aligned]: in every world and from every trace, [alignApkFile] checks
    [path], then spawns [cp path aligned], and its result is [aligned]
    when both processes exit with 0. *)
Definition AlignsTo (path aligned : string) : Prop :=
  forall (w : World) (t : list Event) (zipAlign : string),
    let check := Exec (Signing.quoted zipAlign) ["-c"; "-v"; "4"; path] in
    let copy := Exec (Signing.quoted "cp") [path; aligned] in
    Signing.alignApkFile path zipAlign w t
    = match spawn w t (Signing.quoted zipAlign) ["-c"; "-v"; "4"; path] with
      | Some e => ((t ++ [check])%list, Throw e)
      | None =>
          match spawn w (t ++ [check]) (Signing.quoted "cp") [path; aligned] with
          | Some e => ((t ++ [check; copy])%list, Throw e)
          | None => ((t ++ [check; copy])%list, Ok aligned)
          end
      end.

(** The sign stage run for the original file [path], as [signApkFile]
    calls it, writes to [signed] and returns [signed]: in every world,
    [signFile] spawns the signer with [signed] after [--out], and its
    result is [signed] when the signer exits with 0. *)
Definition SignsTo (path signed : string) : Prop :=
  forall (w : World) (t : list Event)
         (signerPath fileToSign signingKeyFile alias keyStorePassword : string)
         (keyPassword : option string),
    let args := Signing.signFile_args fileToSign signingKeyFile alias
                                      keyStorePassword keyPassword signed in
    Signing.signFile signerPath fileToSign signingKeyFile alias keyStorePassword
                     keyPassword path "-signed.apk" w t
    = ((t ++ [Exec (Signing.quoted signerPath) args])%list,
       match spawn w t (Signing.quoted signerPath) args with
       | None => Ok signed
       | Some e => Throw e
       end).

(** The whole pipeline run on [path] goes through [aligned] and ends in
    [signed]: wherever the build tools are resolved and every process
    exits with 0, [signApkFile] checks [path], copies it to [aligned],
    signs [aligned] into [signed], verifies [signed] and returns
    [signed]. *)
Definition PipelineDerives (path aligned signed : string) : Prop :=
  forall (w : World) (t : list Event)
         (signingKeyFile alias keyStorePassword : string)
         (keyPassword : option string),
    JS.truthy_opt (env w "ANDROID_HOME") = true ->
    existsSync w (Spec.expectedBuildToolsPath w) = true ->
    Spec.all_processes_succeed w ->
    let run := Signing.signApkFile path signingKeyFile alias keyStorePassword
                                   keyPassword w t in
    snd run = Ok signed
    /\ spawned (Spec.emitted t (fst run))
       = [Exec (Signing.quoted (Spec.zipAlignPath w)) ["-c"; "-v"; "4"; path];
          Exec (Signing.quoted "cp") [path; aligned];
          Exec (Signing.quoted (Spec.apkSignerPath w))
               (Signing.signFile_args aligned signingKeyFile alias keyStorePassword
                                      keyPassword signed);
          Exec (Signing.quoted (Spec.apkSignerPath w)) ["verify"; signed]].

End Derivation.

(** * Properties *)

(** ** Strings *)

Section StringFacts.

Lemma append_nil_r (s : string) : s ++ "" = s.
Proof. induction s as [|c s IH]; simpl; [reflexivity | now rewrite IH]. Qed.

Lemma append_assoc (a b c : string) : (a ++ b) ++ c = a ++ b ++ c.
Proof. induction a as [|x a IH]; simpl; [reflexivity | now rewrite IH]. Qed.

Lemma length_append (a b : string) :
  String.length (a ++ b) = String.length a + String.length b.
Proof. induction a as [|x a IH]; simpl; [reflexivity | now rewrite IH]. Qed.

Lemma prefix_append (pat rest : string) : prefix pat (pat ++ rest) = true.
Proof.
  induction pat as [|c pat IH]; simpl.
  - now destruct rest.
  - destruct (ascii_dec c c) as [_|n]; [exact IH | now elim n].
Qed.

Lemma prefix_split (pat s : string) :
  prefix pat s = true -> s = pat ++ JS.substringFrom (String.length pat) s.
Proof.
  revert s; induction pat as [|c pat IH]; intros s H; simpl.
  - reflexivity.
  - destruct s as [|d s]; simpl in H; [discriminate|].
    destruct (ascii_dec c d) as [->|]; [|discriminate].
    now rewrite <- (IH s H).
Qed.

Lemma substring_append (pre rest : string) :
  substring 0 (String.length pre) (pre ++ rest) = pre.
Proof. induction pre as [|c pre IH]; simpl; [now destruct rest | now rewrite IH]. Qed.

Lemma substringFrom_append (pre rest : string) :
  JS.substringFrom (String.length pre) (pre ++ rest) = rest.
Proof. induction pre as [|c pre IH]; simpl; [reflexivity | exact IH]. Qed.

Lemma substringFrom_add (n : nat) (pre rest : string) :
  JS.substringFrom (String.length pre + n) (pre ++ rest) = JS.substringFrom n rest.
Proof. induction pre as [|c pre IH]; simpl; [reflexivity | exact IH]. Qed.

End StringFacts.

(** ** Occurrences and [StringIndexOf] *)

Section Occurrences.

Variable pat : string.

Local Abbreviation OccursAfter := (Spec.OccursAfter pat).
Local Abbreviation FirstAfter := (Spec.FirstAfter pat).

Lemma StringIndexOf_nil :
  JS.StringIndexOf "" pat = if prefix pat "" then Some 0 else None.
Proof. reflexivity. Qed.

Lemma StringIndexOf_cons (c : ascii) (s : string) :
  JS.StringIndexOf (String c s) pat
  = if prefix pat (String c s) then Some 0
    else option_map S (JS.StringIndexOf s pat).
Proof. reflexivity. Qed.

Lemma StringIndexOf_prefix (s : string) :
  prefix pat s = true -> JS.StringIndexOf s pat = Some 0.
Proof.
  intros H. destruct s.
  - now rewrite StringIndexOf_nil, H.
  - now rewrite StringIndexOf_cons, H.
Qed.

Lemma prefix_occurs (s : string) :
  prefix pat s = true -> OccursAfter "" s.
Proof.
  intros H. exists (JS.substringFrom (String.length pat) s).
  now apply prefix_split.
Qed.

Lemma StringIndexOf_first (pre s : string) :
  FirstAfter pre s -> JS.StringIndexOf s pat = Some (String.length pre).
Proof.
  revert s; induction pre as [|c pre IH]; intros s [[post ->] Hmin].
  - simpl. apply StringIndexOf_prefix. apply prefix_append.
  - change (String c pre ++ pat ++ post) with (String c (pre ++ pat ++ post)) in *.
    rewrite StringIndexOf_cons.
    destruct (prefix pat (String c (pre ++ pat ++ post))) eqn:Hp.
    + specialize (Hmin "" (prefix_occurs _ Hp)). simpl in Hmin. lia.
    + rewrite (IH (pre ++ pat ++ post)); [reflexivity|].
      split; [now exists post|].
      intros pre' [post' E].
      assert (H : OccursAfter (String c pre') (String c (pre ++ pat ++ post))).
      { exists post'. simpl. now rewrite <- E. }
      specialize (Hmin _ H). simpl in Hmin. lia.
Qed.

Lemma StringIndexOf_Some (s : string) (n : nat) :
  JS.StringIndexOf s pat = Some n ->
  exists pre, FirstAfter pre s /\ String.length pre = n.
Proof.
  revert n; induction s as [|c s IH]; intros n H.
  - rewrite StringIndexOf_nil in H.
    destruct (prefix pat "") eqn:Hp; [|discriminate].
    injection H as <-. exists "". split; [|reflexivity].
    split; [now apply prefix_occurs | intros; simpl; lia].
  - rewrite StringIndexOf_cons in H.
    destruct (prefix pat (String c s)) eqn:Hp.
    + injection H as <-. exists "". split; [|reflexivity].
      split; [now apply prefix_occurs | intros; simpl; lia].
    + destruct (JS.StringIndexOf s pat) as [m|] eqn:Hs; [|discriminate].
      simpl in H. injection H as <-.
      destruct (IH m eq_refl) as (pre & [[post ->] Hmin] & <-).
      exists (String c pre). split; [|reflexivity].
      split; [now exists post|].
      intros [|d pre'] [post' E].
      * simpl in E. rewrite E, prefix_append in Hp. discriminate.
      * simpl in E. injection E as <- E.
        specialize (Hmin pre' (ex_intro _ post' E)). simpl. lia.
Qed.

Lemma StringIndexOf_None (s : string) :
  JS.StringIndexOf s pat = None -> forall pre, ~ OccursAfter pre s.
Proof.
  induction s as [|c s IH]; intros H pre [post E].
  - rewrite StringIndexOf_nil in H.
    destruct (prefix pat "") eqn:Hp; [discriminate|].
    destruct pre; simpl in E; [|discriminate].
    rewrite E, prefix_append in Hp. discriminate.
  - rewrite StringIndexOf_cons in H.
    destruct (prefix pat (String c s)) eqn:Hp; [discriminate|].
    destruct (JS.StringIndexOf s pat) eqn:Hs; [discriminate|].
    destruct pre as [|d pre]; simpl in E.
    + rewrite E, prefix_append in Hp. discriminate.
    + injection E as <- E. exact (IH eq_refl pre (ex_intro _ post E)).
Qed.

Lemma includes_true (s : string) :
  JS.includes s pat = true <-> exists pre, OccursAfter pre s.
Proof.
  unfold JS.includes. destruct (JS.StringIndexOf s pat) eqn:H; split.
  - intros _. apply StringIndexOf_Some in H. destruct H as (pre & [Ho _] & _). now exists pre.
  - reflexivity.
  - discriminate.
  - intros [pre Ho]. exfalso. eapply StringIndexOf_None; eassumption.
Qed.

Lemma includes_false (s : string) :
  JS.includes s pat = false <-> forall pre, ~ OccursAfter pre s.
Proof.
  split.
  - intros H pre Ho.
    assert (JS.includes s pat = true) by (apply includes_true; now exists pre).
    congruence.
  - intros H. destruct (JS.includes s pat) eqn:E; [|reflexivity].
    apply includes_true in E. destruct E as [pre Ho]. elim (H pre Ho).
Qed.

(** [replace] splits the string at the first occurrence of the
    pattern and expands the template there. *)
Lemma replace_first (template pre post : string) :
  FirstAfter pre (pre ++ pat ++ post) ->
  JS.replace (pre ++ pat ++ post) pat template
  = pre ++ JS.GetSubstitution pat pre post template ++ post.
Proof.
  intros H. unfold JS.replace. rewrite (StringIndexOf_first H).
  rewrite substring_append, substringFrom_add, substringFrom_append.
  reflexivity.
Qed.

Lemma replace_none (template s : string) :
  JS.includes s pat = false -> JS.replace s pat template = s.
Proof.
  unfold JS.includes, JS.replace. now destruct (JS.StringIndexOf s pat).
Qed.

Lemma replace_some (template s : string) :
  JS.includes s pat = true ->
  exists pre post, s = pre ++ pat ++ post /\ FirstAfter pre s /\
    JS.replace s pat template
    = pre ++ JS.GetSubstitution pat pre post template ++ post.
Proof.
  unfold JS.includes. destruct (JS.StringIndexOf s pat) as [n|] eqn:H; [|discriminate].
  intros _. apply StringIndexOf_Some in H. destruct H as (pre & Hf & _).
  destruct Hf as [[post E] Hmin]. exists pre, post. split; [exact E|].
  split; [split; [now exists post | exact Hmin]|].
  rewrite E at 1. apply replace_first. rewrite <- E.
  split; [now exists post | exact Hmin].
Qed.

End Occurrences.

(** ** The patterns of the program: [.apk] and the inserted infixes *)

Section Patterns.

Lemma includes_cons (pat : string) (c : ascii) (s : string) :
  JS.includes (String c s) pat
  = prefix pat (String c s) || JS.includes s pat.
Proof.
  unfold JS.includes. rewrite StringIndexOf_cons.
  destruct (prefix pat (String c s)); [reflexivity|].
  now destruct (JS.StringIndexOf s pat).
Qed.

Lemma prefix_cons (a b : ascii) (p s : string) :
  prefix (String a p) (String b s) = Ascii.eqb a b && prefix p s.
Proof.
  change (prefix (String a p) (String b s))
    with (if ascii_dec a b then prefix p s else false).
  destruct (ascii_dec a b) as [->|n].
  - now rewrite Ascii.eqb_refl.
  - apply Ascii.eqb_neq in n. now rewrite n.
Qed.

Lemma prefix_cons_nil (a : ascii) (p : string) : prefix (String a p) "" = false.
Proof. reflexivity. Qed.

Lemma prefix_nil (s : string) : prefix "" s = true.
Proof. now destruct s. Qed.

(** Compare a literal pattern with a string whose first code units are
    known or named, one code unit at a time. *)
Ltac compare_units :=
  cbn [append] in *;
  repeat rewrite ?prefix_cons, ?prefix_cons_nil, ?prefix_nil in *;
  repeat match goal with
         | H : (_ && _)%bool = true |- _ =>
             apply andb_prop in H; destruct H
         | H : Ascii.eqb _ _ = true |- _ =>
             apply Ascii.eqb_eq in H; try discriminate H; subst
         | H : false = true |- _ => discriminate H
         end.

(** An occurrence of [.apk] cannot start inside [x] and end inside a
    following [.apk]: the dot is the pattern's first code unit only. *)
Lemma prefix_apk_straddle (x rest : string) :
  x <> "" ->
  prefix ".apk" (x ++ ".apk" ++ rest) = true -> prefix ".apk" x = true.
Proof.
  intros Hx H.
  destruct x as [|c0 [|c1 [|c2 [|c3 x]]]];
    try congruence; compare_units; reflexivity.
Qed.

Lemma StringIndexOf_apk_stem (pre post : string) :
  JS.includes pre ".apk" = false ->
  JS.StringIndexOf (pre ++ ".apk" ++ post) ".apk" = Some (String.length pre).
Proof.
  induction pre as [|c pre IH]; intros H.
  - apply StringIndexOf_prefix. apply (prefix_append ".apk" post).
  - rewrite includes_cons in H. apply orb_false_iff in H. destruct H as [Hp Hi].
    change (String c pre ++ ".apk" ++ post) with (String c (pre ++ ".apk" ++ post)).
    rewrite StringIndexOf_cons.
    destruct (prefix ".apk" (String c (pre ++ ".apk" ++ post))) eqn:E.
    + apply (@prefix_apk_straddle (String c pre) post) in E; congruence.
    + now rewrite (IH Hi).
Qed.

(** Replacing in [stem ++ ".apk" ++ post], where [stem] has no [.apk]
    of its own, rewrites exactly that occurrence. *)
Lemma replace_apk_stem (template stem post : string) :
  JS.includes stem ".apk" = false ->
  JS.replace (stem ++ ".apk" ++ post) ".apk" template
  = stem ++ JS.GetSubstitution ".apk" stem post template ++ post.
Proof.
  intros H. unfold JS.replace. rewrite StringIndexOf_apk_stem by exact H.
  rewrite substring_append.
  change (String.length ".apk") with 4.
  rewrite (substringFrom_add 4 stem (".apk" ++ post)).
  reflexivity.
Qed.

(** The infix [-aligned] cannot begin before the inserted [-signed.apk]
    and end inside it. *)
Lemma prefix_aligned_straddle (x rest : string) :
  prefix "-aligned" (x ++ "-signed.apk" ++ rest) = true ->
  prefix "-aligned" (x ++ ".apk" ++ rest) = true.
Proof.
  intros H.
  destruct x as [|c0 [|c1 [|c2 [|c3 [|c4 [|c5 [|c6 [|c7 x]]]]]]]];
    compare_units; reflexivity.
Qed.

Ltac skip_unit :=
  rewrite includes_cons, prefix_cons;
  match goal with
  | |- context [Ascii.eqb ?a ?b] =>
      let v := eval vm_compute in (Ascii.eqb a b) in
      change (Ascii.eqb a b) with v
  end; cbn [andb orb].

Lemma includes_aligned_signed_tail (post : string) :
  JS.includes ("-signed.apk" ++ post) "-aligned" = JS.includes post "-aligned".
Proof.
  cbn [append]. skip_unit.
  rewrite prefix_cons. cbn [Ascii.eqb Bool.eqb andb orb].
  repeat skip_unit. reflexivity.
Qed.

Lemma includes_aligned_apk_tail (post : string) :
  JS.includes (".apk" ++ post) "-aligned" = JS.includes post "-aligned".
Proof.
  cbn [append]. repeat skip_unit. reflexivity.
Qed.

(** Putting [-signed.apk] where [.apk] was brings no [-aligned] into a
    name that had none. *)
Lemma signed_infix_brings_no_aligned (pre post : string) :
  JS.includes (pre ++ ".apk" ++ post) "-aligned" = false ->
  JS.includes (pre ++ "-signed.apk" ++ post) "-aligned" = false.
Proof.
  induction pre as [|c pre IH]; intros H.
  - change ("" ++ ?x) with x in *.
    now rewrite includes_aligned_signed_tail, <- includes_aligned_apk_tail.
  - change (String c pre ++ ?x) with (String c (pre ++ x)) in *.
    rewrite includes_cons in *. apply orb_false_iff in H. destruct H as [Hp Hi].
    apply orb_false_iff. split; [|exact (IH Hi)].
    destruct (prefix "-aligned" (String c (pre ++ "-signed.apk" ++ post))) eqn:E;
      [|reflexivity].
    apply (@prefix_aligned_straddle (String c pre) post) in E.
    simpl in E, Hp. congruence.
Qed.

End Patterns.

(** ** Runs of the program *)

Section Runs.
Import Actions.

Lemma emitted_app (t l : list Event) : Spec.emitted t (t ++ l) = l.
Proof.
  unfold Spec.emitted. induction t as [|e t IH]; [reflexivity | exact IH].
Qed.

Variable w : World.

Lemma getBuildToolsPath_run (t : list Event) :
  Signing.getBuildToolsPath w t
  = if negb (JS.truthy_opt (env w "ANDROID_HOME")) then
      (t, Throw (mkError "ANDROID_HOME environment variable is not set."))
    else if negb (existsSync w (Spec.expectedBuildToolsPath w)) then
      (t, Throw (mkError ("Couldn't find the Android build tools @ "
                          ++ Spec.expectedBuildToolsPath w)))
    else (t, Ok (Spec.expectedBuildToolsPath w)).
Proof.
  unfold Signing.getBuildToolsPath, bind, core_getInput, process_env,
    path_join, fs_existsSync, throw, ret.
  unfold Spec.expectedBuildToolsPath, Spec.buildToolsVersion.
  destruct (negb (JS.truthy_opt (env w "ANDROID_HOME"))); [reflexivity|].
  now destruct (negb (existsSync w _)).
Qed.

Lemma exec_exec_run (t : list Event) (cmd : string) (args : list string) :
  exec_exec cmd args w t
  = ((t ++ [Exec cmd args])%list,
     match spawn w t cmd args with
     | None => Ok tt
     | Some e => Throw e
     end).
Proof. unfold exec_exec. now destruct (spawn w t cmd args). Qed.

Lemma alignApkFile_run (t : list Event) (apkFile zipAlign : string) :
  let check := Spec.checkProcess zipAlign apkFile in
  let copy := Spec.copyProcess apkFile in
  Signing.alignApkFile apkFile zipAlign w t
  = match spawn w t (Signing.quoted zipAlign) ["-c"; "-v"; "4"; apkFile] with
    | Some e => ((t ++ [check])%list, Throw e)
    | None =>
        match spawn w (t ++ [check]) (Signing.quoted "cp")
                    [apkFile; Signing.alignedName apkFile] with
        | Some e => ((t ++ [check; copy])%list, Throw e)
        | None => ((t ++ [check; copy])%list, Ok (Signing.alignedName apkFile))
        end
    end.
Proof.
  intros check copy.
  unfold Signing.alignApkFile, bind, ret. rewrite exec_exec_run.
  fold (Signing.alignedName apkFile). fold check.
  destruct (spawn w t _ _); [reflexivity|].
  rewrite exec_exec_run. fold copy. rewrite <- app_assoc. simpl.
  now destruct (spawn w _ _ _).
Qed.

Lemma signFile_run (t : list Event)
      (signerPath fileToSign signingKeyFile alias keyStorePassword : string)
      (keyPassword : option string) (originalFile fileExtension : string) :
  let signedFile := JS.replace originalFile ".apk" fileExtension in
  let args := Signing.signFile_args fileToSign signingKeyFile alias
                                    keyStorePassword keyPassword signedFile in
  Signing.signFile signerPath fileToSign signingKeyFile alias keyStorePassword
                   keyPassword originalFile fileExtension w t
  = ((t ++ [Exec (Signing.quoted signerPath) args])%list,
     match spawn w t (Signing.quoted signerPath) args with
     | None => Ok signedFile
     | Some e => Throw e
     end).
Proof.
  intros signedFile args.
  unfold Signing.signFile, bind, ret. rewrite exec_exec_run.
  now destruct (spawn w t _ _).
Qed.

Variables apkFile signingKeyFile alias keyStorePassword : string.
Variable keyPassword : option string.

Local Abbreviation script :=
  (Spec.apkScript w apkFile signingKeyFile alias keyStorePassword keyPassword).

(** A run of [signApkFile] records the script up to the step that
    fails, then the failure; or the whole script, and returns the signed
    name. *)
Lemma signApkFile_run (t : list Event) :
  (Signing.signApkFile apkFile signingKeyFile alias keyStorePassword keyPassword w t
   = ((t ++ script)%list, Ok (Signing.signedName apkFile)))
  \/ exists k e, In k [1; 3; 4; 7; 9] /\
       Signing.signApkFile apkFile signingKeyFile alias keyStorePassword keyPassword w t
       = ((t ++ firstn k script ++ [Spec.apkFailure e])%list, Throw e).
Proof.
  unfold Signing.signApkFile, try_catch, bind, core_debug, core_setFailed, emit,
    path_join, throw, ret, Signing.verifySignedFile.
  rewrite getBuildToolsPath_run.
  destruct (negb (JS.truthy_opt (env w "ANDROID_HOME"))).
  { right. exists 1, (mkError "ANDROID_HOME environment variable is not set.").
    split; [simpl; auto|]. cbv beta iota. rewrite <- app_assoc. reflexivity. }
  destruct (negb (existsSync w (Spec.expectedBuildToolsPath w))).
  { right. eexists 1, _. split; [simpl; auto|].
    cbv beta iota. rewrite <- app_assoc. reflexivity. }
  cbv beta iota.
  fold (Spec.zipAlignPath w). fold (Spec.apkSignerPath w).
  rewrite alignApkFile_run. cbv zeta.
  destruct (spawn w _ (Signing.quoted (Spec.zipAlignPath w)) _).
  { right. eexists 3, _. split; [simpl; auto 6|].
    cbv beta iota. rewrite <- !app_assoc. reflexivity. }
  cbv beta iota.
  destruct (spawn w _ (Signing.quoted "cp") _).
  { right. eexists 4, _. split; [simpl; auto 6|].
    cbv beta iota. rewrite <- !app_assoc. reflexivity. }
  cbv beta iota.
  rewrite signFile_run. cbv zeta. fold (Signing.signedName apkFile).
  destruct (spawn w _ (Signing.quoted (Spec.apkSignerPath w)) _).
  { right. eexists 7, _. split; [simpl; auto 6|].
    cbv beta iota. rewrite <- !app_assoc. reflexivity. }
  cbv beta iota.
  rewrite exec_exec_run.
  destruct (spawn w _ (Signing.quoted (Spec.apkSignerPath w)) _).
  { right. eexists 9, _. split; [simpl; auto 6|].
    cbv beta iota. rewrite <- !app_assoc. reflexivity. }
  cbv beta iota.
  left. rewrite <- !app_assoc. reflexivity.
Qed.

Variable aabFile : string.

Lemma signAabFile_run (t : list Event) :
  let started := Debug "Signing AAB file" in
  let args := Signing.signAabFile_args aabFile signingKeyFile alias
                                       keyStorePassword keyPassword in
  let failure e := SetFailed ("Failed to sign AAB file: " ++ message e) in
  Signing.signAabFile aabFile signingKeyFile alias keyStorePassword keyPassword w t
  = match which w "jarsigner" with
    | inl e => ((t ++ [started; failure e])%list, Throw e)
    | inr jarSignerPath =>
        let found := Debug ("Found 'jarsigner' @ " ++ jarSignerPath) in
        let sign := Exec (Signing.quoted jarSignerPath) args in
        match spawn w (t ++ [started; found]) (Signing.quoted jarSignerPath) args with
        | None => ((t ++ [started; found; sign])%list, Ok aabFile)
        | Some e => ((t ++ [started; found; sign; failure e])%list, Throw e)
        end
    end.
Proof.
  intros started args failure.
  unfold Signing.signAabFile, try_catch, bind, core_debug, core_setFailed, emit,
    io_which, throw, ret.
  destruct (which w "jarsigner") as [e|jarSignerPath]; cbv beta iota zeta.
  { rewrite <- app_assoc. reflexivity. }
  rewrite exec_exec_run. fold args. rewrite <- !app_assoc.
  change ([started] ++ [Debug ("Found 'jarsigner' @ " ++ jarSignerPath)])%list
    with [started; Debug ("Found 'jarsigner' @ " ++ jarSignerPath)].
  destruct (spawn w _ _ _); cbv beta iota; rewrite <- ?app_assoc; reflexivity.
Qed.

End Runs.

(** ** The derived names *)

Section Names.

Lemma names_without_apk (name : string) :
  JS.includes name ".apk" = false ->
  Signing.alignedName name = name /\ Signing.signedName name = name.
Proof.
  intros H. unfold Signing.alignedName, Signing.signedName.
  now rewrite !replace_none.
Qed.

Lemma names_with_apk (name : string) :
  JS.includes name ".apk" = true ->
  exists pre post,
    name = pre ++ ".apk" ++ post /\ Spec.FirstAfter ".apk" pre name /\
    Signing.alignedName name = pre ++ "-aligned.apk" ++ post /\
    Signing.signedName name = pre ++ "-signed.apk" ++ post.
Proof.
  intros H.
  destruct (@replace_some ".apk" "-aligned.apk" name H) as (pre & post & E & Hf & Ha).
  exists pre, post. split; [exact E|]. split; [exact Hf|].
  split; [exact Ha|].
  unfold Signing.signedName. rewrite E at 1. rewrite replace_first.
  - reflexivity.
  - now rewrite <- E.
Qed.


Lemma includes_alignedName (name : string) :
  JS.includes name ".apk" = true ->
  JS.includes (Signing.alignedName name) ".apk" = true.
Proof.
  intros H. destruct (@names_with_apk name H) as (pre & post & _ & _ & -> & _).
  apply includes_true. exists (pre ++ "-aligned"), post.
  now rewrite append_assoc.
Qed.

Lemma includes_signedName (name : string) :
  JS.includes name ".apk" = true ->
  JS.includes (Signing.signedName name) ".apk" = true.
Proof.
  intros H. destruct (@names_with_apk name H) as (pre & post & _ & _ & _ & ->).
  apply includes_true. exists (pre ++ "-signed"), post.
  now rewrite append_assoc.
Qed.

Lemma length_alignedName (name : string) :
  JS.includes name ".apk" = true ->
  String.length (Signing.alignedName name) = String.length name + 8.
Proof.
  intros H. destruct (@names_with_apk name H) as (pre & post & E & _ & -> & _).
  rewrite E, !length_append. simpl. lia.
Qed.

Lemma length_signedName (name : string) :
  JS.includes name ".apk" = true ->
  String.length (Signing.signedName name) = String.length name + 7.
Proof.
  intros H. destruct (@names_with_apk name H) as (pre & post & E & _ & _ & ->).
  rewrite E, !length_append. simpl. lia.
Qed.

End Names.

(** ** Argument lists *)

Section Arguments.

Lemma has_pair_cons (flag value a b : string) (rest : list string) :
  Spec.has_pair flag value (a :: b :: rest)
  = (String.eqb a flag && String.eqb b value) || Spec.has_pair flag value (b :: rest).
Proof. reflexivity. Qed.

Lemma has_pair_app (flag value : string) (before after : list string) :
  Spec.has_pair flag value (before ++ flag :: value :: after) = true.
Proof.
  induction before as [|a before IH].
  - cbn [app]. rewrite has_pair_cons, !String.eqb_refl. reflexivity.
  - change ((a :: before) ++ flag :: value :: after)%list
      with (a :: (before ++ flag :: value :: after))%list.
    destruct (before ++ flag :: value :: after)%list as [|b rest] eqn:E.
    + destruct before; discriminate E.
    + rewrite has_pair_cons, IH. apply orb_true_r.
Qed.

Lemma falsy_keyPassword (keyPassword : option string) :
  JS.truthy_opt keyPassword = false <-> keyPassword = None \/ keyPassword = Some "".
Proof.
  split.
  - destruct keyPassword as [[|c s]|]; simpl; intros H; auto; discriminate.
  - intros [->| ->]; reflexivity.
Qed.

Lemma truthy_nonempty (s : string) : s <> "" -> JS.truthy s = true.
Proof. destruct s; [congruence | reflexivity]. Qed.

End Arguments.

(** ** The derivation applied by the program, and applied again *)

Section DerivedByTheProgram.

Lemma first_has_no_earlier (pat pre s : string) :
  pat <> "" -> Spec.FirstAfter pat pre s -> JS.includes pre pat = false.
Proof.
  intros Hpat [[post E] Hmin]. apply includes_false. intros a [b Ea].
  assert (Ho : Spec.OccursAfter pat a s).
  { exists (b ++ pat ++ post). now rewrite E, Ea, !append_assoc. }
  specialize (Hmin a Ho). rewrite Ea, !length_append in Hmin.
  destruct pat as [|c pat]; [congruence|]. simpl in Hmin. lia.
Qed.

Ltac units :=
  cbn [append] in *;
  repeat rewrite ?prefix_cons, ?prefix_cons_nil, ?prefix_nil in *;
  repeat match goal with
         | H : (_ && _)%bool = true |- _ =>
             apply andb_prop in H; destruct H
         | H : Ascii.eqb _ _ = true |- _ =>
             apply Ascii.eqb_eq in H; try discriminate H; subst
         | H : false = true |- _ => discriminate H
         end.

(** An occurrence of [.apk] cannot begin in [x] and end inside an infix
    that follows it: neither infix has a dot before its [.apk]. *)
Lemma prefix_apk_before_aligned (x rest : string) :
  x <> "" ->
  prefix ".apk" (x ++ "-aligned.apk" ++ rest) = true -> prefix ".apk" x = true.
Proof.
  intros Hx H.
  destruct x as [|c0 [|c1 [|c2 [|c3 x]]]]; try congruence; units; reflexivity.
Qed.

Lemma prefix_apk_before_signed (x rest : string) :
  x <> "" ->
  prefix ".apk" (x ++ "-signed.apk" ++ rest) = true -> prefix ".apk" x = true.
Proof.
  intros Hx H.
  destruct x as [|c0 [|c1 [|c2 [|c3 x]]]]; try congruence; units; reflexivity.
Qed.

Lemma StringIndexOf_apk_after_aligned (pre post : string) :
  JS.includes pre ".apk" = false ->
  JS.StringIndexOf (pre ++ "-aligned.apk" ++ post) ".apk"
  = Some (String.length (pre ++ "-aligned")).
Proof.
  induction pre as [|c pre IH]; intros H.
  - apply (@StringIndexOf_first ".apk" "-aligned" ("-aligned.apk" ++ post)).
    split; [now exists post|].
    intros pre' [post' E].
    destruct pre' as [|d0 [|d1 [|d2 [|d3 [|d4 [|d5 [|d6 [|d7 pre']]]]]]]];
      try discriminate E; simpl; lia.
  - rewrite includes_cons in H. apply orb_false_iff in H. destruct H as [Hp Hi].
    change (String c pre ++ "-aligned.apk" ++ post)
      with (String c (pre ++ "-aligned.apk" ++ post)).
    rewrite StringIndexOf_cons.
    destruct (prefix ".apk" (String c (pre ++ "-aligned.apk" ++ post))) eqn:E.
    + apply (@prefix_apk_before_aligned (String c pre) post) in E; congruence.
    + now rewrite (IH Hi).
Qed.

Lemma StringIndexOf_apk_after_signed (pre post : string) :
  JS.includes pre ".apk" = false ->
  JS.StringIndexOf (pre ++ "-signed.apk" ++ post) ".apk"
  = Some (String.length (pre ++ "-signed")).
Proof.
  induction pre as [|c pre IH]; intros H.
  - apply (@StringIndexOf_first ".apk" "-signed" ("-signed.apk" ++ post)).
    split; [now exists post|].
    intros pre' [post' E].
    destruct pre' as [|d0 [|d1 [|d2 [|d3 [|d4 [|d5 [|d6 pre']]]]]]];
      try discriminate E; simpl; lia.
  - rewrite includes_cons in H. apply orb_false_iff in H. destruct H as [Hp Hi].
    change (String c pre ++ "-signed.apk" ++ post)
      with (String c (pre ++ "-signed.apk" ++ post)).
    rewrite StringIndexOf_cons.
    destruct (prefix ".apk" (String c (pre ++ "-signed.apk" ++ post))) eqn:E.
    + apply (@prefix_apk_before_signed (String c pre) post) in E; congruence.
    + now rewrite (IH Hi).
Qed.

Lemma replace_at (pat template s before after : string) :
  s = before ++ pat ++ after ->
  JS.StringIndexOf s pat = Some (String.length before) ->
  JS.replace s pat template
  = before ++ JS.GetSubstitution pat before after template ++ after.
Proof.
  intros -> Hi. unfold JS.replace. rewrite Hi.
  now rewrite substring_append, substringFrom_add, substringFrom_append.
Qed.

(** The derived names of a name with [.apk], and the names derived from
    them in turn. *)
Lemma names_derived_twice (name : string) :
  JS.includes name ".apk" = true ->
  exists pre post,
    name = pre ++ ".apk" ++ post
    /\ Signing.alignedName name = pre ++ "-aligned.apk" ++ post
    /\ Signing.signedName name = pre ++ "-signed.apk" ++ post
    /\ Signing.alignedName (pre ++ "-aligned.apk" ++ post)
       = pre ++ "-aligned-aligned.apk" ++ post
    /\ Signing.signedName (pre ++ "-aligned.apk" ++ post)
       = pre ++ "-aligned-signed.apk" ++ post
    /\ Signing.alignedName (pre ++ "-signed.apk" ++ post)
       = pre ++ "-signed-aligned.apk" ++ post
    /\ Signing.signedName (pre ++ "-signed.apk" ++ post)
       = pre ++ "-signed-signed.apk" ++ post.
Proof.
  intros H. destruct (@names_with_apk name H) as (pre & post & E & Hf & Ha & Hs).
  assert (Hpre : JS.includes pre ".apk" = false)
    by (apply (@first_has_no_earlier ".apk" pre name); [discriminate | exact Hf]).
  exists pre, post. split; [exact E|]. split; [exact Ha|]. split; [exact Hs|].
  assert (Ea : pre ++ "-aligned.apk" ++ post = (pre ++ "-aligned") ++ ".apk" ++ post)
    by now rewrite append_assoc.
  assert (Es : pre ++ "-signed.apk" ++ post = (pre ++ "-signed") ++ ".apk" ++ post)
    by now rewrite append_assoc.
  unfold Signing.alignedName, Signing.signedName.
  rewrite !(@replace_at ".apk" _ (pre ++ "-aligned.apk" ++ post) (pre ++ "-aligned") post
                        Ea (StringIndexOf_apk_after_aligned pre post Hpre)).
  rewrite !(@replace_at ".apk" _ (pre ++ "-signed.apk" ++ post) (pre ++ "-signed") post
                        Es (StringIndexOf_apk_after_signed pre post Hpre)).
  cbn [JS.GetSubstitution Ascii.eqb Bool.eqb]. rewrite !append_assoc.
  repeat split; reflexivity.
Qed.

(** What the three functions derive, in terms of the two names. *)
Lemma alignApkFile_aligns (path : string) :
  Derivation.AlignsTo path (Signing.alignedName path).
Proof. intros w t zipAlign. exact (alignApkFile_run w t path zipAlign). Qed.

Lemma signFile_signs (path : string) :
  Derivation.SignsTo path (Signing.signedName path).
Proof.
  intros w t signerPath fileToSign signingKeyFile alias keyStorePassword keyPassword.
  exact (signFile_run w t signerPath fileToSign signingKeyFile alias keyStorePassword
                      keyPassword path "-signed.apk").
Qed.

Lemma signApkFile_derives (path : string) :
  Derivation.PipelineDerives path (Signing.alignedName path) (Signing.signedName path).
Proof.
  intros w t signingKeyFile alias keyStorePassword keyPassword Hhome Hdir Hok run.
  assert (Hrun : run = ((t ++ Spec.apkScript w path signingKeyFile alias
                                             keyStorePassword keyPassword)%list,
                        Actions.Ok (Signing.signedName path))).
  { unfold run, Signing.signApkFile, Actions.try_catch, Actions.bind,
      Actions.core_debug, Actions.core_setFailed, Actions.emit, Actions.path_join,
      Actions.throw, Actions.ret, Signing.verifySignedFile.
    rewrite getBuildToolsPath_run, Hhome, Hdir. cbv beta iota. cbn [negb].
    rewrite alignApkFile_run. cbv zeta. rewrite !Hok.
    rewrite signFile_run. cbv zeta. rewrite Hok, exec_exec_run, Hok.
    rewrite <- !app_assoc. reflexivity. }
  rewrite Hrun. cbn [fst snd]. rewrite emitted_app. split; reflexivity.
Qed.

End DerivedByTheProgram.

(** ** The program on the sample machine *)

Example replace_foo :
  JS.replace "foo.apk" ".apk" "-aligned.apk" = "foo-aligned.apk".
Proof. reflexivity. Qed.

Example replace_template :
  JS.replace "xaby" "ab" "[$&|$`|$'|$$|$1]" = "x[ab|x|y|$|$1]y".
Proof. reflexivity. Qed.

Example sample_apk_run :
  Signing.signApkFile "app/foo.apk" "key.jks" "test_key" "android" (Some "android")
                      Sample.world []
  = ([Actions.Debug "Zipaligning APK file";
      Actions.Debug "Found 'zipalign' @ /sdk/build-tools/35.0.0/zipalign";
      Actions.Exec (Signing.quoted "/sdk/build-tools/35.0.0/zipalign")
                   ["-c"; "-v"; "4"; "app/foo.apk"];
      Actions.Exec (Signing.quoted "cp") ["app/foo.apk"; "app/foo-aligned.apk"];
      Actions.Debug "Signing APK file";
      Actions.Debug "Found 'apksigner' @ /sdk/build-tools/35.0.0/apksigner";
      Actions.Exec (Signing.quoted "/sdk/build-tools/35.0.0/apksigner")
                   ["sign"; "--ks"; "key.jks"; "--ks-key-alias"; "test_key";
                    "--ks-pass"; "pass:android"; "--out"; "app/foo-signed.apk";
                    "--key-pass"; "pass:android"; "app/foo-aligned.apk"];
      Actions.Debug "Verifying Signed APK";
      Actions.Exec (Signing.quoted "/sdk/build-tools/35.0.0/apksigner")
                   ["verify"; "app/foo-signed.apk"]],
     Actions.Ok "app/foo-signed.apk").
Proof. reflexivity. Qed.

Example sample_apk_run_without_tools :
  Signing.signApkFile "app/foo.apk" "key.jks" "test_key" "android" None
                      Sample.world_no_tools []
  = ([Actions.Debug "Zipaligning APK file";
      Actions.SetFailed
        "Failed to sign APK file: Couldn't find the Android build tools @ /sdk/build-tools/34.0.0"],
     Actions.Throw
       (Actions.mkError "Couldn't find the Android build tools @ /sdk/build-tools/34.0.0")).
Proof. reflexivity. Qed.

(** * The claims *)

Import Actions.

(** C1. Claim: for every APK input path the aligned and the signed path are
    the input with its [.apk] extension replaced by [-aligned.apk] and
    [-signed.apk], whatever directories the path passes through.  The code
    breaks this for a path with an earlier [.apk], here a directory
    [release.apks]: it rewrites that first occurrence and leaves the
    extension alone, so that the copy and the signer are pointed at
    another directory. *)
Theorem C1_directory_with_apk_is_rewritten :
  Signing.alignedName "release.apks/app.apk" = "release-aligned.apks/app.apk" /\
  Signing.alignedName "release.apks/app.apk" <> "release.apks/app-aligned.apk" /\
  Signing.signedName "release.apks/app.apk" = "release-signed.apks/app.apk" /\
  Signing.signedName "release.apks/app.apk" <> "release.apks/app-signed.apk" /\
  Spec.spawned_by_sample_apk_run "release.apks/app.apk"
  = [Exec (Signing.quoted "/sdk/build-tools/35.0.0/zipalign")
          ["-c"; "-v"; "4"; "release.apks/app.apk"];
     Exec (Signing.quoted "cp")
          ["release.apks/app.apk"; "release-aligned.apks/app.apk"];
     Exec (Signing.quoted "/sdk/build-tools/35.0.0/apksigner")
          ["sign"; "--ks"; "key.jks"; "--ks-key-alias"; "release";
           "--ks-pass"; "pass:storepw"; "--out"; "release-signed.apks/app.apk";
           "release-aligned.apks/app.apk"];
     Exec (Signing.quoted "/sdk/build-tools/35.0.0/apksigner")
          ["verify"; "release-signed.apks/app.apk"]].
Proof.
  repeat split; try reflexivity; vm_compute; discriminate.
Qed.

(** C2, as stated, fails for a key password that is present but empty:
    the apksigner argument list then has no [--key-pass] at all, although
    the claim asks for the pair [--key-pass pass:<keyPassword>]. *)
Lemma C2_empty_key_password_has_no_pair :
  Signing.signFile_args "app-aligned.apk" "key.jks" "release" "storepw" (Some "")
                        "app-signed.apk"
  = ["sign"; "--ks"; "key.jks"; "--ks-key-alias"; "release";
     "--ks-pass"; "pass:storepw"; "--out"; "app-signed.apk"; "app-aligned.apk"] /\
  Spec.has_pair "--key-pass" ("pass:" ++ "")
    (Signing.signFile_args "app-aligned.apk" "key.jks" "release" "storepw" (Some "")
                           "app-signed.apk") = false /\
  Spec.has_arg "--key-pass"
    (Signing.signFile_args "app-aligned.apk" "key.jks" "release" "storepw" (Some "")
                           "app-signed.apk") = false.
Proof. repeat split. Qed.

(** C2, amended: when keyPassword is omitted, the one process [signFile]
    spawns gets exactly
    [sign --ks <keyFile> --ks-key-alias <alias> --ks-pass pass:<keyStorePassword> --out <signedFile> <fileToSign>],
    so that [--key-pass] is among the arguments only if a file name or the
    alias is that very string; when keyPassword is present and not empty,
    the pair [--key-pass pass:<keyPassword>] stands right before the file
    to sign. *)
Theorem C2_key_pass_pair_for_nonempty_key_password
        (w : World) (t : list Event)
        (signerPath fileToSign signingKeyFile alias keyStorePassword : string)
        (originalFile fileExtension : string) :
  let signedFile := JS.replace originalFile ".apk" fileExtension in
  let fixed := ["sign"; "--ks"; signingKeyFile; "--ks-key-alias"; alias;
                "--ks-pass"; "pass:" ++ keyStorePassword; "--out"; signedFile] in
  (Spec.emitted t (fst (Signing.signFile signerPath fileToSign signingKeyFile alias
                                         keyStorePassword None originalFile
                                         fileExtension w t))
   = [Exec (Signing.quoted signerPath) (fixed ++ [fileToSign])]
   /\ Spec.has_arg "--key-pass" (fixed ++ [fileToSign])
      = Spec.has_arg "--key-pass" [signingKeyFile; alias; signedFile; fileToSign])
  /\ forall keyPassword : string,
      keyPassword <> "" ->
      Spec.emitted t (fst (Signing.signFile signerPath fileToSign signingKeyFile alias
                                            keyStorePassword (Some keyPassword)
                                            originalFile fileExtension w t))
      = [Exec (Signing.quoted signerPath)
              (fixed ++ ["--key-pass"; "pass:" ++ keyPassword; fileToSign])]
      /\ Spec.has_pair "--key-pass" ("pass:" ++ keyPassword)
           (fixed ++ ["--key-pass"; "pass:" ++ keyPassword; fileToSign]) = true.
Proof.
  intros signedFile fixed. split; [split|].
  - rewrite signFile_run. cbv zeta. cbn [fst]. now rewrite emitted_app.
  - unfold fixed, Spec.has_arg. cbn [app existsb].
    change ("pass:" ++ keyStorePassword) with (String "p" ("ass:" ++ keyStorePassword)).
    change (String.eqb "--key-pass" "sign") with false.
    change (String.eqb "--key-pass" "--ks") with false.
    change (String.eqb "--key-pass" "--ks-key-alias") with false.
    change (String.eqb "--key-pass" "--ks-pass") with false.
    change (String.eqb "--key-pass" "--out") with false.
    change (String.eqb "--key-pass" (String "p" ("ass:" ++ keyStorePassword))) with false.
    reflexivity.
  - intros keyPassword Hne. split.
    + rewrite signFile_run. cbv zeta. cbn [fst]. rewrite emitted_app.
      unfold Signing.signFile_args. cbn [JS.truthy_opt Signing.narrowed].
      now rewrite truthy_nonempty by exact Hne.
    + apply (has_pair_app "--key-pass" ("pass:" ++ keyPassword) fixed [fileToSign]).
Qed.

Lemma C2_witness :
  "android" <> "" /\
  Spec.has_pair "--key-pass" "pass:android"
    ["sign"; "--ks"; "key.jks"; "--ks-key-alias"; "test_key";
     "--ks-pass"; "pass:android"; "--out"; "app-signed.apk";
     "--key-pass"; "pass:android"; "app-aligned.apk"] = true.
Proof.
  assert (H : "android" <> "") by discriminate.
  split; [exact H|].
  exact (proj2 (proj2 (C2_key_pass_pair_for_nonempty_key_password
                         Sample.world [] "apksigner" "app-aligned.apk" "key.jks"
                         "test_key" "android" "app.apk" "-signed.apk")
                      "android" H)).
Defined.


(** C4. For every APK input, the path handed to apksigner after [--out] is
    the [-signed.apk] substitution on the original input name, while the
    file to sign is the aligned copy: the processes of a run are an
    initial part of check, copy, sign, verify, where sign has
    [--out <signedName apkFile>] and ends with [alignedName apkFile]; a run
    in which the tools are found and every process succeeds goes through
    all of them and returns the signed name.  The signed name is not what
    the substitution would give on the aligned name, and it has no
    [-aligned] that the input did not have. *)
Theorem C4_signed_path_from_original_name
        (w : World) (t : list Event)
        (apkFile signingKeyFile alias keyStorePassword : string)
        (keyPassword : option string) :
  let run := Signing.signApkFile apkFile signingKeyFile alias keyStorePassword
                                 keyPassword w t in
  let signArgs :=
      (["sign"; "--ks"; signingKeyFile; "--ks-key-alias"; alias;
        "--ks-pass"; ("pass:" ++ keyStorePassword)%string;
        "--out"; JS.replace apkFile ".apk" "-signed.apk"]
       ++ (if JS.truthy_opt keyPassword
           then ["--key-pass"; ("pass:" ++ Signing.narrowed keyPassword)%string]
           else [])
       ++ [JS.replace apkFile ".apk" "-aligned.apk"])%list in
  let processes :=
      [Exec (Signing.quoted (Spec.zipAlignPath w)) ["-c"; "-v"; "4"; apkFile];
       Exec (Signing.quoted "cp") [apkFile; JS.replace apkFile ".apk" "-aligned.apk"];
       Exec (Signing.quoted (Spec.apkSignerPath w)) signArgs;
       Exec (Signing.quoted (Spec.apkSignerPath w))
            ["verify"; JS.replace apkFile ".apk" "-signed.apk"]] in
  (exists k, spawned (Spec.emitted t (fst run)) = firstn k processes)
  /\ (JS.truthy_opt (env w "ANDROID_HOME") = true ->
      existsSync w (Spec.expectedBuildToolsPath w) = true ->
      Spec.all_processes_succeed w ->
      spawned (Spec.emitted t (fst run)) = processes
      /\ snd run = Ok (JS.replace apkFile ".apk" "-signed.apk"))
  /\ (JS.includes apkFile ".apk" = true ->
      JS.replace apkFile ".apk" "-signed.apk"
      <> JS.replace (JS.replace apkFile ".apk" "-aligned.apk") ".apk" "-signed.apk")
  /\ (JS.includes apkFile "-aligned" = false ->
      JS.includes (JS.replace apkFile ".apk" "-signed.apk") "-aligned" = false).
Proof.
  intros run signArgs processes.
  assert (Hscript :
            Spec.apkScript w apkFile signingKeyFile alias keyStorePassword keyPassword
            = [Debug "Zipaligning APK file";
               Debug ("Found 'zipalign' @ " ++ Spec.zipAlignPath w);
               nth 0 processes (Debug "");
               nth 1 processes (Debug "");
               Debug "Signing APK file";
               Debug ("Found 'apksigner' @ " ++ Spec.apkSignerPath w);
               nth 2 processes (Debug "");
               Debug "Verifying Signed APK";
               nth 3 processes (Debug "")]) by reflexivity.
  assert (Hrun := signApkFile_run w apkFile signingKeyFile alias keyStorePassword
                                  keyPassword t).
  fold run in Hrun. rewrite Hscript in Hrun. cbn [nth processes] in Hrun.
  assert (Hall : JS.truthy_opt (env w "ANDROID_HOME") = true ->
                 existsSync w (Spec.expectedBuildToolsPath w) = true ->
                 Spec.all_processes_succeed w ->
                 run = ((t ++ Spec.apkScript w apkFile signingKeyFile alias
                                             keyStorePassword keyPassword)%list,
                        Ok (Signing.signedName apkFile))).
  { intros Hhome Hdir Hok.
    unfold run, Signing.signApkFile, try_catch, bind, core_debug, core_setFailed,
      emit, path_join, throw, ret, Signing.verifySignedFile.
    rewrite getBuildToolsPath_run, Hhome, Hdir. cbv beta iota. cbn [negb].
    rewrite alignApkFile_run. cbv zeta. rewrite !Hok.
    rewrite signFile_run. cbv zeta. rewrite Hok, exec_exec_run, Hok.
    rewrite <- !app_assoc. reflexivity. }
  split; [|split; [|split]].
  - destruct Hrun as [E | (k & e & Hk & E)]; rewrite E; cbn [fst];
      rewrite emitted_app.
    + now exists 4.
    + cbn [In] in Hk.
      destruct Hk as [<-|[<-|[<-|[<-|[<-|[]]]]]];
        [exists 0 | exists 1 | exists 2 | exists 3 | exists 4]; reflexivity.
  - intros Hhome Hdir Hok. rewrite (Hall Hhome Hdir Hok). cbn [fst snd].
    rewrite emitted_app. split; reflexivity.
  - intros H E. apply (f_equal String.length) in E.
    fold (Signing.signedName apkFile) in E. fold (Signing.alignedName apkFile) in E.
    fold (Signing.signedName (Signing.alignedName apkFile)) in E.
    rewrite (length_signedName (Signing.alignedName apkFile)) in E
      by (apply includes_alignedName; exact H).
    rewrite length_signedName, length_alignedName in E by exact H. lia.
  - intros H. fold (Signing.signedName apkFile).
    destruct (JS.includes apkFile ".apk") eqn:Hapk.
    + destruct (@names_with_apk apkFile Hapk) as (pre & post & E & _ & _ & ->).
      apply signed_infix_brings_no_aligned. now rewrite <- E.
    + destruct (@names_without_apk apkFile Hapk) as [_ ->]. exact H.
Qed.

Lemma C4_witness :
  (JS.truthy_opt (env Sample.world "ANDROID_HOME") = true /\
   existsSync Sample.world (Spec.expectedBuildToolsPath Sample.world) = true /\
   Spec.all_processes_succeed Sample.world /\
   JS.includes "app/foo.apk" ".apk" = true /\
   JS.includes "app/foo.apk" "-aligned" = false) /\
  snd (Signing.signApkFile "app/foo.apk" "key.jks" "test_key" "android"
                           (Some "android") Sample.world [])
  = Ok "app/foo-signed.apk" /\
  "app/foo-signed.apk" <> "app/foo-aligned-signed.apk" /\
  JS.includes "app/foo-signed.apk" "-aligned" = false.
Proof.
  assert (Hhome : JS.truthy_opt (env Sample.world "ANDROID_HOME") = true)
    by reflexivity.
  assert (Hdir : existsSync Sample.world (Spec.expectedBuildToolsPath Sample.world)
                 = true) by reflexivity.
  assert (Hok : Spec.all_processes_succeed Sample.world)
    by (intros t c a; reflexivity).
  assert (Hapk : JS.includes "app/foo.apk" ".apk" = true) by reflexivity.
  assert (Hplain : JS.includes "app/foo.apk" "-aligned" = false) by reflexivity.
  destruct (C4_signed_path_from_original_name
              Sample.world [] "app/foo.apk" "key.jks" "test_key" "android"
              (Some "android")) as (_ & Hrun & Hother & Hnone).
  split; [now repeat split|].
  split; [exact (proj2 (Hrun Hhome Hdir Hok))|].
  split; [exact (Hother Hapk) | exact (Hnone Hplain)].
Defined.

(** C5, as stated, fails: the derivation is not idempotent.  Applied to its
    own output for [foo.apk] it inserts the infix a second time. *)
Lemma C5_derivation_is_not_idempotent :
  Signing.alignedName (Signing.alignedName "foo.apk") = "foo-aligned-aligned.apk" /\
  Signing.alignedName (Signing.alignedName "foo.apk") <> Signing.alignedName "foo.apk" /\
  Signing.signedName (Signing.signedName "foo.apk") = "foo-signed-signed.apk" /\
  Signing.signedName (Signing.signedName "foo.apk") <> Signing.signedName "foo.apk".
Proof. repeat split; try reflexivity; vm_compute; discriminate. Qed.

(** C5, amended: the derived names are deterministic: two runs on the same
    input name, in whatever worlds, with whatever tools and credentials,
    return the same aligned and the same signed name, which are what
    [alignApkFile], [signFile] and [signApkFile] copy to, write to and
    return.  The derivation is idempotent only on a name without [.apk],
    which the program leaves as it is.  On a name [pre ++ ".apk" ++ post]
    the program derives [pre-aligned.apk post] and [pre-signed.apk post],
    and applied to its own output it inserts the infix again:
    [pre-aligned-aligned.apk post] and [pre-signed-signed.apk post], a
    different name, longer by 8 and by 7 code units. *)
Theorem C5_names_deterministic_not_idempotent (name : string) :
  (forall (w1 w2 : World) (t1 t2 : list Event) (zipAlign1 zipAlign2 r1 r2 : string),
      snd (Signing.alignApkFile name zipAlign1 w1 t1) = Ok r1 ->
      snd (Signing.alignApkFile name zipAlign2 w2 t2) = Ok r2 ->
      r1 = r2)
  /\ (forall (w1 w2 : World) (t1 t2 : list Event)
             (key1 key2 alias1 alias2 pass1 pass2 : string)
             (keyPass1 keyPass2 : option string) (r1 r2 : string),
         snd (Signing.signApkFile name key1 alias1 pass1 keyPass1 w1 t1) = Ok r1 ->
         snd (Signing.signApkFile name key2 alias2 pass2 keyPass2 w2 t2) = Ok r2 ->
         r1 = r2)
  /\ Derivation.AlignsTo name (JS.replace name ".apk" "-aligned.apk")
  /\ Derivation.SignsTo name (JS.replace name ".apk" "-signed.apk")
  /\ Derivation.PipelineDerives name (JS.replace name ".apk" "-aligned.apk")
                                (JS.replace name ".apk" "-signed.apk")
  /\ (JS.includes name ".apk" = false ->
      Signing.alignedName name = name /\ Signing.signedName name = name
      /\ Derivation.AlignsTo name name
      /\ Derivation.SignsTo name name
      /\ Derivation.PipelineDerives name name name)
  /\ (JS.includes name ".apk" = true ->
      Signing.alignedName (Signing.alignedName name) <> Signing.alignedName name
      /\ Signing.signedName (Signing.signedName name) <> Signing.signedName name
      /\ exists pre post,
          name = pre ++ ".apk" ++ post
          /\ Derivation.AlignsTo name (pre ++ "-aligned.apk" ++ post)
          /\ Derivation.AlignsTo (pre ++ "-aligned.apk" ++ post)
                                 (pre ++ "-aligned-aligned.apk" ++ post)
          /\ Derivation.SignsTo name (pre ++ "-signed.apk" ++ post)
          /\ Derivation.SignsTo (pre ++ "-signed.apk" ++ post)
                                (pre ++ "-signed-signed.apk" ++ post)
          /\ Derivation.PipelineDerives name (pre ++ "-aligned.apk" ++ post)
                                        (pre ++ "-signed.apk" ++ post)
          /\ Derivation.PipelineDerives (pre ++ "-signed.apk" ++ post)
                                        (pre ++ "-signed-aligned.apk" ++ post)
                                        (pre ++ "-signed-signed.apk" ++ post)
          /\ String.length (pre ++ "-aligned-aligned.apk" ++ post)
             = String.length (pre ++ "-aligned.apk" ++ post) + 8
          /\ String.length (pre ++ "-signed-signed.apk" ++ post)
             = String.length (pre ++ "-signed.apk" ++ post) + 7
          /\ pre ++ "-aligned-aligned.apk" ++ post <> pre ++ "-aligned.apk" ++ post
          /\ pre ++ "-signed-signed.apk" ++ post <> pre ++ "-signed.apk" ++ post).
Proof.
  assert (Halign : forall w t zipAlign r,
             snd (Signing.alignApkFile name zipAlign w t) = Ok r ->
             r = Signing.alignedName name).
  { intros w t zipAlign r. rewrite alignApkFile_run. cbv zeta.
    destruct (spawn w t _ _); [discriminate|].
    destruct (spawn w _ _ _); [discriminate|].
    cbn [snd]. congruence. }
  assert (Hsign : forall w t key alias pass keyPass r,
             snd (Signing.signApkFile name key alias pass keyPass w t) = Ok r ->
             r = Signing.signedName name).
  { intros w t key alias pass keyPass r.
    destruct (signApkFile_run w name key alias pass keyPass t)
      as [E | (k & e & _ & E)]; rewrite E; cbn [snd]; congruence. }
  split; [|split; [|split; [|split; [|split; [|split]]]]].
  - intros w1 w2 t1 t2 z1 z2 r1 r2 H1 H2.
    now rewrite (Halign _ _ _ _ H1), (Halign _ _ _ _ H2).
  - intros w1 w2 t1 t2 k1 k2 a1 a2 p1 p2 kp1 kp2 r1 r2 H1 H2.
    now rewrite (Hsign _ _ _ _ _ _ _ H1), (Hsign _ _ _ _ _ _ _ H2).
  - apply alignApkFile_aligns.
  - apply signFile_signs.
  - apply signApkFile_derives.
  - intros H. destruct (@names_without_apk name H) as [Ea Es].
    split; [exact Ea|]. split; [exact Es|]. split; [|split].
    + rewrite <- Ea at 2. apply alignApkFile_aligns.
    + rewrite <- Es at 2. apply signFile_signs.
    + rewrite <- Ea at 2. rewrite <- Es at 3. apply signApkFile_derives.
  - intros H. split; [|split].
    + intros E. apply (f_equal String.length) in E.
      rewrite (length_alignedName (Signing.alignedName name)) in E
        by (apply includes_alignedName; exact H).
      lia.
    + intros E. apply (f_equal String.length) in E.
      rewrite (length_signedName (Signing.signedName name)) in E
        by (apply includes_signedName; exact H).
      lia.
    + destruct (@names_derived_twice name H)
        as (pre & post & E & Ha & Hs & Haa & _ & Hsa & Hss).
      exists pre, post. split; [exact E|].
      split; [rewrite <- Ha; apply alignApkFile_aligns|].
      split; [rewrite <- Haa; apply alignApkFile_aligns|].
      split; [rewrite <- Hs; apply signFile_signs|].
      split; [rewrite <- Hss; apply signFile_signs|].
      split; [rewrite <- Ha, <- Hs; apply signApkFile_derives|].
      split; [rewrite <- Hsa, <- Hss; apply signApkFile_derives|].
      assert (La : String.length (pre ++ "-aligned-aligned.apk" ++ post)
                   = String.length (pre ++ "-aligned.apk" ++ post) + 8)
        by (rewrite !length_append; simpl; lia).
      assert (Ls : String.length (pre ++ "-signed-signed.apk" ++ post)
                   = String.length (pre ++ "-signed.apk" ++ post) + 7)
        by (rewrite !length_append; simpl; lia).
      split; [exact La|]. split; [exact Ls|].
      split; intros Eq; apply (f_equal String.length) in Eq; lia.
Qed.

Lemma C5_witness :
  (JS.includes "foo.aab" ".apk" = false /\ JS.includes "foo.apk" ".apk" = true) /\
  Signing.alignedName "foo.aab" = "foo.aab" /\
  Signing.alignedName (Signing.alignedName "foo.apk") <> Signing.alignedName "foo.apk" /\
  snd (Signing.signApkFile "foo.apk" "key.jks" "test_key" "android" (Some "android")
                           Sample.world [])
  = snd (Signing.signApkFile "foo.apk" "other.jks" "other_key" "secret" None
                             Sample.world [Debug "an earlier run"]) /\
  exists r1 r2,
    snd (Signing.alignApkFile "foo.apk" "zipalign" Sample.world []) = Ok r1
    /\ snd (Signing.alignApkFile r1 "zipalign" Sample.world []) = Ok r2
    /\ String.length r2 = String.length r1 + 8.
Proof.
  assert (Hno : JS.includes "foo.aab" ".apk" = false) by reflexivity.
  assert (Hyes : JS.includes "foo.apk" ".apk" = true) by reflexivity.
  assert (T := C5_names_deterministic_not_idempotent "foo.apk").
  destruct T as (_ & Hdet & _ & _ & _ & _ & Htwice).
  destruct (Htwice Hyes) as (Hne & _ & pre & post & _ & Ha & Haa & _ & _ & _ & _ & La & _).
  split; [now split|].
  split; [exact (proj1 (proj1 (proj2 (proj2 (proj2 (proj2 (proj2
            (C5_names_deterministic_not_idempotent "foo.aab")))))) Hno))|].
  split; [exact Hne|].
  split.
  - exact (f_equal (@Ok string)
             (Hdet Sample.world Sample.world [] [Debug "an earlier run"]
                   "key.jks" "other.jks" "test_key" "other_key" "android" "secret"
                   (Some "android") None "foo-signed.apk" "foo-signed.apk"
                   eq_refl eq_refl)).
  - exists (pre ++ "-aligned.apk" ++ post), (pre ++ "-aligned-aligned.apk" ++ post).
    split; [|split; [|exact La]].
    + rewrite (Ha Sample.world [] "zipalign"). reflexivity.
    + rewrite (Haa Sample.world [] "zipalign"). reflexivity.
Defined.

(** C6. For every AAB input path, [signAabFile] returns, when it returns,
    exactly the path it was given; it does return it when jarsigner is on
    the PATH and the process succeeds.  The one process it spawns is
    jarsigner on that same path: no other file name is derived. *)
Theorem C6_signAabFile_returns_its_input
        (w : World) (t : list Event)
        (aabFile signingKeyFile alias keyStorePassword : string)
        (keyPassword : option string) :
  let run := Signing.signAabFile aabFile signingKeyFile alias keyStorePassword
                                 keyPassword w t in
  (forall r, snd run = Ok r -> r = aabFile)
  /\ (forall jarSignerPath,
         which w "jarsigner" = inr jarSignerPath ->
         Spec.all_processes_succeed w ->
         snd run = Ok aabFile /\
         spawned (Spec.emitted t (fst run))
         = [Exec (Signing.quoted jarSignerPath)
                 (["-keystore"; signingKeyFile; "-storepass"; keyStorePassword]
                  ++ (if JS.truthy_opt keyPassword
                      then ["-keypass"; Signing.narrowed keyPassword]
                      else [])
                  ++ [aabFile; alias])%list]).
Proof.
  intros run. unfold run. rewrite signAabFile_run. cbv zeta. split.
  - intros r. destruct (which w "jarsigner") as [e|p]; [discriminate|].
    destruct (spawn w _ _ _); [discriminate|]. cbn [snd]. congruence.
  - intros p Hp Hok. rewrite Hp, Hok. cbn [fst snd]. rewrite emitted_app.
    split; reflexivity.
Qed.

Lemma C6_witness :
  (which Sample.world "jarsigner" = inr "/usr/bin/jarsigner" /\
   Spec.all_processes_succeed Sample.world) /\
  Signing.signAabFile "app/bar.aab" "key.jks" "test_key" "android" (Some "android")
                      Sample.world []
  = ([Debug "Signing AAB file";
      Debug "Found 'jarsigner' @ /usr/bin/jarsigner";
      Exec (Signing.quoted "/usr/bin/jarsigner")
           ["-keystore"; "key.jks"; "-storepass"; "android";
            "-keypass"; "android"; "app/bar.aab"; "test_key"]],
     Ok "app/bar.aab") /\
  snd (Signing.signAabFile "app/bar.aab" "key.jks" "test_key" "android"
                           (Some "android") Sample.world [])
  = Ok "app/bar.aab".
Proof.
  assert (Hwhich : which Sample.world "jarsigner" = inr "/usr/bin/jarsigner")
    by reflexivity.
  assert (Hok : Spec.all_processes_succeed Sample.world)
    by (intros t c a; reflexivity).
  split; [now split|]. split; [reflexivity|].
  exact (proj1 (proj2 (C6_signAabFile_returns_its_input
                         Sample.world [] "app/bar.aab" "key.jks" "test_key"
                         "android" (Some "android"))
                      "/usr/bin/jarsigner" Hwhich Hok)).
Defined.

(** C7. If [ANDROID_HOME] is unset, resolving the build tools fails with
    the error [ANDROID_HOME environment variable is not set.], and
    [signApkFile] fails with that error having spawned no process: it only
    records a debug line and the failure. *)
Theorem C7_unset_android_home_fails_before_any_process
        (w : World) (t : list Event)
        (apkFile signingKeyFile alias keyStorePassword : string)
        (keyPassword : option string) :
  env w "ANDROID_HOME" = None ->
  let notSet := mkError "ANDROID_HOME environment variable is not set." in
  let run := Signing.signApkFile apkFile signingKeyFile alias keyStorePassword
                                 keyPassword w t in
  Signing.getBuildToolsPath w t = (t, Throw notSet)
  /\ run = ((t ++ [Debug "Zipaligning APK file";
                   SetFailed ("Failed to sign APK file: "
                              ++ "ANDROID_HOME environment variable is not set.")])%list,
            Throw notSet)
  /\ spawned (Spec.emitted t (fst run)) = [].
Proof.
  intros Hhome notSet run.
  assert (Htools : forall t', Signing.getBuildToolsPath w t' = (t', Throw notSet)).
  { intros t'. rewrite getBuildToolsPath_run, Hhome. reflexivity. }
  assert (Hrun : run = ((t ++ [Debug "Zipaligning APK file";
                               Spec.apkFailure notSet])%list, Throw notSet)).
  { unfold run, Signing.signApkFile, try_catch, bind, core_debug, core_setFailed,
      emit, throw. rewrite Htools. cbv beta iota. rewrite <- app_assoc. reflexivity. }
  split; [apply Htools|]. split; [exact Hrun|].
  rewrite Hrun. cbn [fst]. rewrite emitted_app. reflexivity.
Qed.

Lemma C7_witness :
  env Sample.world_no_home "ANDROID_HOME" = None /\
  Signing.signApkFile "app/foo.apk" "key.jks" "test_key" "android" (Some "android")
                      Sample.world_no_home []
  = ([Debug "Zipaligning APK file";
      SetFailed "Failed to sign APK file: ANDROID_HOME environment variable is not set."],
     Throw (mkError "ANDROID_HOME environment variable is not set.")).
Proof.
  assert (Hhome : env Sample.world_no_home "ANDROID_HOME" = None) by reflexivity.
  split; [exact Hhome|].
  exact (proj1 (proj2 (C7_unset_android_home_fails_before_any_process
                         Sample.world_no_home [] "app/foo.apk" "key.jks" "test_key"
                         "android" (Some "android") Hhome))).
Defined.

(** C8. If the directory [<sdkRoot>/build-tools/<version>], joined by the
    platform's [path.join] for the resolved version, does not exist,
    resolving the build tools fails, and the message of the error ends
    with (so contains) that path; [signApkFile] fails with this error and
    spawns no process. *)
Theorem C8_missing_build_tools_error_names_the_path
        (w : World) (t : list Event) (sdkRoot : string)
        (apkFile signingKeyFile alias keyStorePassword : string)
        (keyPassword : option string) :
  env w "ANDROID_HOME" = Some sdkRoot ->
  sdkRoot <> "" ->
  let version := JS.or3 (getInput w "buildToolsVersion")
                        (env w "ANDROID_BUILD_TOOLS_VERSION") "35.0.0" in
  let expected := join w sdkRoot ("build-tools/" ++ version) in
  existsSync w expected = false ->
  let run := Signing.signApkFile apkFile signingKeyFile alias keyStorePassword
                                 keyPassword w t in
  exists e,
    Signing.getBuildToolsPath w t = (t, Throw e)
    /\ message e = "Couldn't find the Android build tools @ " ++ expected
    /\ Spec.Contains (message e) expected
    /\ snd run = Throw e
    /\ spawned (Spec.emitted t (fst run)) = [].
Proof.
  intros Hhome Hne version expected Hmissing run.
  assert (Hexp : Spec.expectedBuildToolsPath w = expected).
  { unfold Spec.expectedBuildToolsPath. now rewrite Hhome. }
  set (e := mkError ("Couldn't find the Android build tools @ " ++ expected)).
  assert (Htools : forall t', Signing.getBuildToolsPath w t' = (t', Throw e)).
  { intros t'. rewrite getBuildToolsPath_run, Hhome, Hexp, Hmissing.
    cbn [JS.truthy_opt]. now rewrite truthy_nonempty by exact Hne. }
  assert (Hrun : run = ((t ++ [Debug "Zipaligning APK file"; Spec.apkFailure e])%list,
                        Throw e)).
  { unfold run, Signing.signApkFile, try_catch, bind, core_debug, core_setFailed,
      emit, throw. rewrite Htools. cbv beta iota. rewrite <- app_assoc. reflexivity. }
  exists e. split; [apply Htools|]. split; [reflexivity|].
  split; [|split].
  - exists "Couldn't find the Android build tools @ ", "".
    cbn [message e]. now rewrite append_nil_r.
  - now rewrite Hrun.
  - rewrite Hrun. cbn [fst]. rewrite emitted_app. reflexivity.
Qed.

Lemma C8_witness :
  (env Sample.world_no_tools "ANDROID_HOME" = Some "/sdk" /\
   "/sdk" <> "" /\
   existsSync Sample.world_no_tools "/sdk/build-tools/34.0.0" = false) /\
  exists e,
    Signing.getBuildToolsPath Sample.world_no_tools [] = ([], Throw e)
    /\ message e = "Couldn't find the Android build tools @ /sdk/build-tools/34.0.0".
Proof.
  assert (Hhome : env Sample.world_no_tools "ANDROID_HOME" = Some "/sdk")
    by reflexivity.
  assert (Hne : "/sdk" <> "") by discriminate.
  assert (Hmissing : existsSync Sample.world_no_tools "/sdk/build-tools/34.0.0" = false)
    by reflexivity.
  split; [now repeat split|].
  destruct (C8_missing_build_tools_error_names_the_path
              Sample.world_no_tools [] "app/foo.apk" "key.jks" "test_key" "android"
              (Some "android") Hhome Hne Hmissing) as (e & Htools & Hmsg & _).
  exists e. split; [exact Htools | exact Hmsg].
Defined.

(** C9. Passing the empty string as keyPassword behaves exactly like
    omitting it: [signFile], [signApkFile] and [signAabFile] are the same
    computations for the two, and whenever keyPassword is undefined or
    empty (which is when it is falsy) the apksigner list has no
    [--key-pass] pair and the jarsigner list no [-keypass] pair: each is
    the fixed arguments followed by the file operands. *)
Theorem C9_empty_key_password_is_omitted
        (signerPath fileToSign signingKeyFile alias keyStorePassword : string)
        (originalFile fileExtension signedFile : string) :
  Signing.signFile signerPath fileToSign signingKeyFile alias keyStorePassword
                   (Some "") originalFile fileExtension
  = Signing.signFile signerPath fileToSign signingKeyFile alias keyStorePassword
                     None originalFile fileExtension
  /\ Signing.signApkFile originalFile signingKeyFile alias keyStorePassword (Some "")
     = Signing.signApkFile originalFile signingKeyFile alias keyStorePassword None
  /\ Signing.signAabFile fileToSign signingKeyFile alias keyStorePassword (Some "")
     = Signing.signAabFile fileToSign signingKeyFile alias keyStorePassword None
  /\ forall keyPassword : option string,
      (JS.truthy_opt keyPassword = false <->
       keyPassword = None \/ keyPassword = Some "")
      /\ (keyPassword = None \/ keyPassword = Some "" ->
          Signing.signFile_args fileToSign signingKeyFile alias keyStorePassword
                                keyPassword signedFile
          = ["sign"; "--ks"; signingKeyFile; "--ks-key-alias"; alias;
             "--ks-pass"; "pass:" ++ keyStorePassword; "--out"; signedFile;
             fileToSign]
          /\ Signing.signAabFile_args fileToSign signingKeyFile alias
                                      keyStorePassword keyPassword
             = ["-keystore"; signingKeyFile; "-storepass"; keyStorePassword;
                fileToSign; alias]).
Proof.
  split; [reflexivity|]. split; [reflexivity|]. split; [reflexivity|].
  intros keyPassword. split; [apply falsy_keyPassword|].
  intros [-> | ->]; split; reflexivity.
Qed.

Lemma C9_witness :
  (Some "" = None \/ Some "" = Some "") /\
  Signing.signFile_args "app-aligned.apk" "key.jks" "test_key" "android" (Some "")
                        "app-signed.apk"
  = ["sign"; "--ks"; "key.jks"; "--ks-key-alias"; "test_key";
     "--ks-pass"; "pass:android"; "--out"; "app-signed.apk"; "app-aligned.apk"] /\
  Signing.signAabFile_args "app-aligned.apk" "key.jks" "test_key" "android" (Some "")
  = ["-keystore"; "key.jks"; "-storepass"; "android"; "app-aligned.apk"; "test_key"].
Proof.
  assert (H : Some "" = None \/ Some "" = Some "") by (right; reflexivity).
  split; [exact H|].
  exact (proj2 (proj2 (proj2 (proj2
           (C9_empty_key_password_is_omitted
              "apksigner" "app-aligned.apk" "key.jks" "test_key" "android"
              "app.apk" "-signed.apk" "app-signed.apk"))) (Some "")) H).
Defined.

(** C10. The derivation replaces only the first occurrence of [.apk] in
    the input path: when the path is [pre ++ ".apk" ++ post] and [.apk]
    occurs nowhere earlier, [alignApkFile] copies to and returns
    [pre ++ "-aligned.apk" ++ post], [signFile] writes to and returns
    [pre ++ "-signed.apk" ++ post], and [signApkFile] goes through the
    first and returns the second, with [post] (and any [.apk] in it)
    unchanged.  For a path without [.apk] the derivation is the identity:
    the aligned and the signed path are the path itself. *)
Theorem C10_only_first_apk_is_replaced (path : string) :
  (forall pre post,
      path = pre ++ ".apk" ++ post ->
      (forall pre' post', path = pre' ++ ".apk" ++ post' ->
                          String.length pre <= String.length pre') ->
      JS.replace path ".apk" "-aligned.apk" = pre ++ "-aligned.apk" ++ post /\
      JS.replace path ".apk" "-signed.apk" = pre ++ "-signed.apk" ++ post /\
      Derivation.AlignsTo path (pre ++ "-aligned.apk" ++ post) /\
      Derivation.SignsTo path (pre ++ "-signed.apk" ++ post) /\
      Derivation.PipelineDerives path (pre ++ "-aligned.apk" ++ post)
                                 (pre ++ "-signed.apk" ++ post))
  /\ ((forall pre post, path <> pre ++ ".apk" ++ post) ->
      JS.replace path ".apk" "-aligned.apk" = path /\
      JS.replace path ".apk" "-signed.apk" = path /\
      Derivation.AlignsTo path path /\
      Derivation.SignsTo path path /\
      Derivation.PipelineDerives path path path).
Proof.
  assert (Hprog : forall aligned signed,
             Signing.alignedName path = aligned ->
             Signing.signedName path = signed ->
             Derivation.AlignsTo path aligned /\ Derivation.SignsTo path signed /\
             Derivation.PipelineDerives path aligned signed).
  { intros aligned signed <- <-. split; [|split].
    - apply alignApkFile_aligns.
    - apply signFile_signs.
    - apply signApkFile_derives. }
  split.
  - intros pre post E Hmin.
    assert (Hf : Spec.FirstAfter ".apk" pre (pre ++ ".apk" ++ post)).
    { split; [now exists post|]. intros pre' [post' E'].
      apply (Hmin pre' post'). now rewrite E. }
    assert (Ha : JS.replace path ".apk" "-aligned.apk" = pre ++ "-aligned.apk" ++ post)
      by (rewrite E, replace_first by exact Hf; reflexivity).
    assert (Hs : JS.replace path ".apk" "-signed.apk" = pre ++ "-signed.apk" ++ post)
      by (rewrite E, replace_first by exact Hf; reflexivity).
    split; [exact Ha|]. split; [exact Hs|]. exact (Hprog _ _ Ha Hs).
  - intros Hnone.
    assert (Hi : JS.includes path ".apk" = false).
    { apply includes_false. intros pre [post E]. exact (Hnone pre post E). }
    destruct (@names_without_apk path Hi) as [Ha Hs].
    split; [exact Ha|]. split; [exact Hs|]. exact (Hprog _ _ Ha Hs).
Qed.

Lemma C10_witness :
  JS.replace "a.apk.apk" ".apk" "-aligned.apk" = "a-aligned.apk.apk" /\
  JS.replace "a.apk.apk" ".apk" "-signed.apk" = "a-signed.apk.apk" /\
  JS.replace "app/bar.aab" ".apk" "-aligned.apk" = "app/bar.aab" /\
  JS.replace "app/bar.aab" ".apk" "-signed.apk" = "app/bar.aab" /\
  Signing.alignApkFile "a.apk.apk" "zipalign" Sample.world []
  = ([Exec (Signing.quoted "zipalign") ["-c"; "-v"; "4"; "a.apk.apk"];
      Exec (Signing.quoted "cp") ["a.apk.apk"; "a-aligned.apk.apk"]],
     Ok "a-aligned.apk.apk") /\
  Signing.signFile "apksigner" "a-aligned.apk.apk" "key.jks" "test_key" "android" None
                   "a.apk.apk" "-signed.apk" Sample.world []
  = ([Exec (Signing.quoted "apksigner")
           ["sign"; "--ks"; "key.jks"; "--ks-key-alias"; "test_key";
            "--ks-pass"; "pass:android"; "--out"; "a-signed.apk.apk";
            "a-aligned.apk.apk"]],
     Ok "a-signed.apk.apk") /\
  Signing.alignApkFile "app/bar.aab" "zipalign" Sample.world []
  = ([Exec (Signing.quoted "zipalign") ["-c"; "-v"; "4"; "app/bar.aab"];
      Exec (Signing.quoted "cp") ["app/bar.aab"; "app/bar.aab"]],
     Ok "app/bar.aab").
Proof.
  assert (Hmin : forall pre' post', "a.apk.apk" = pre' ++ ".apk" ++ post' ->
                                    String.length "a" <= String.length pre').
  { intros [|c pre'] post' E; [discriminate E | simpl; lia]. }
  assert (Hnone : forall pre post, "app/bar.aab" <> pre ++ ".apk" ++ post).
  { intros pre post E.
    assert (Hi : JS.includes "app/bar.aab" ".apk" = true)
      by (apply includes_true; exists pre, post; exact E).
    discriminate Hi. }
  destruct (proj1 (C10_only_first_apk_is_replaced "a.apk.apk") "a" ".apk"
                  eq_refl Hmin) as (Ha & Hs & Hal & Hsi & _).
  destruct (proj2 (C10_only_first_apk_is_replaced "app/bar.aab") Hnone)
    as (Ha' & Hs' & Hal' & _).
  split; [exact Ha|]. split; [exact Hs|]. split; [exact Ha'|]. split; [exact Hs'|].
  split; [exact (Hal Sample.world [] "zipalign")|].
  split; [exact (Hsi Sample.world [] "apksigner" "a-aligned.apk.apk" "key.jks"
                     "test_key" "android" None)|].
  exact (Hal' Sample.world [] "zipalign").
Defined.

(** * Further properties of the pipeline *)

(** ** Templates and derived names *)

Section MoreNames.

Lemma GetSubstitution_literal (matched before after template : string) :
  JS.includes template "$" = false ->
  JS.GetSubstitution matched before after template = template.
Proof.
  induction template as [|c tl IH]; intros H; [reflexivity|].
  rewrite includes_cons in H. apply orb_false_iff in H. destruct H as [Hc Htl].
  rewrite prefix_cons, prefix_nil, andb_true_r, Ascii.eqb_sym in Hc.
  cbn [JS.GetSubstitution]. rewrite Hc. now rewrite (IH Htl).
Qed.

Ltac match_units :=
  cbn [append] in *;
  repeat rewrite ?prefix_cons, ?prefix_cons_nil, ?prefix_nil in *;
  repeat match goal with
         | H : (_ && _)%bool = true |- _ =>
             apply andb_prop in H; destruct H
         | H : Ascii.eqb _ _ = true |- _ =>
             apply Ascii.eqb_eq in H; try discriminate H; subst
         | H : false = true |- _ => discriminate H
         end.

(** An occurrence of [-aligned.apk] that begins before an inserted
    [-aligned.apk] lies wholly before it, and so brings an [.apk] of its
    own. *)
Lemma prefix_aligned_apk_straddle (x rest : string) :
  x <> "" ->
  prefix "-aligned.apk" (x ++ "-aligned.apk" ++ rest) = true ->
  JS.includes x ".apk" = true.
Proof.
  intros Hx H.
  destruct x as [|c0 [|c1 [|c2 [|c3 [|c4 [|c5 [|c6 [|c7 [|c8 [|c9 [|c10 [|c11 x]]]]]]]]]]]];
    try congruence; match_units.
  apply includes_true. exists "-aligned", x. reflexivity.
Qed.

Lemma prefix_signed_apk_straddle (x rest : string) :
  x <> "" ->
  prefix "-signed.apk" (x ++ "-signed.apk" ++ rest) = true ->
  JS.includes x ".apk" = true.
Proof.
  intros Hx H.
  destruct x as [|c0 [|c1 [|c2 [|c3 [|c4 [|c5 [|c6 [|c7 [|c8 [|c9 [|c10 x]]]]]]]]]]];
    try congruence; match_units.
  apply includes_true. exists "-signed", x. reflexivity.
Qed.

Lemma StringIndexOf_aligned_stem (pre post : string) :
  JS.includes pre ".apk" = false ->
  JS.StringIndexOf (pre ++ "-aligned.apk" ++ post) "-aligned.apk"
  = Some (String.length pre).
Proof.
  induction pre as [|c pre IH]; intros H.
  - apply StringIndexOf_prefix. apply (prefix_append "-aligned.apk" post).
  - assert (Hi : JS.includes pre ".apk" = false).
    { rewrite includes_cons in H. now apply orb_false_iff in H. }
    change (String c pre ++ "-aligned.apk" ++ post)
      with (String c (pre ++ "-aligned.apk" ++ post)).
    rewrite StringIndexOf_cons.
    destruct (prefix "-aligned.apk" (String c (pre ++ "-aligned.apk" ++ post))) eqn:E.
    + apply (@prefix_aligned_apk_straddle (String c pre) post) in E; congruence.
    + now rewrite (IH Hi).
Qed.

Lemma StringIndexOf_signed_stem (pre post : string) :
  JS.includes pre ".apk" = false ->
  JS.StringIndexOf (pre ++ "-signed.apk" ++ post) "-signed.apk"
  = Some (String.length pre).
Proof.
  induction pre as [|c pre IH]; intros H.
  - apply StringIndexOf_prefix. apply (prefix_append "-signed.apk" post).
  - assert (Hi : JS.includes pre ".apk" = false).
    { rewrite includes_cons in H. now apply orb_false_iff in H. }
    change (String c pre ++ "-signed.apk" ++ post)
      with (String c (pre ++ "-signed.apk" ++ post)).
    rewrite StringIndexOf_cons.
    destruct (prefix "-signed.apk" (String c (pre ++ "-signed.apk" ++ post))) eqn:E.
    + apply (@prefix_signed_apk_straddle (String c pre) post) in E; congruence.
    + now rewrite (IH Hi).
Qed.

Lemma fromAligned_alignedName (name : string) :
  JS.includes name ".apk" = true ->
  Stages.fromAligned (Signing.alignedName name) = name.
Proof.
  intros H. destruct (@names_with_apk name H) as (pre & post & E & Hf & -> & _).
  assert (Hpre : JS.includes pre ".apk" = false)
    by (apply (@first_has_no_earlier ".apk" pre name); [discriminate | exact Hf]).
  unfold Stages.fromAligned, JS.replace.
  rewrite StringIndexOf_aligned_stem by exact Hpre.
  rewrite substring_append.
  change (String.length "-aligned.apk") with 12.
  rewrite (substringFrom_add 12 pre ("-aligned.apk" ++ post)).
  now rewrite E.
Qed.

Lemma fromSigned_signedName (name : string) :
  JS.includes name ".apk" = true ->
  Stages.fromSigned (Signing.signedName name) = name.
Proof.
  intros H. destruct (@names_with_apk name H) as (pre & post & E & Hf & _ & ->).
  assert (Hpre : JS.includes pre ".apk" = false)
    by (apply (@first_has_no_earlier ".apk" pre name); [discriminate | exact Hf]).
  unfold Stages.fromSigned, JS.replace.
  rewrite StringIndexOf_signed_stem by exact Hpre.
  rewrite substring_append.
  change (String.length "-signed.apk") with 11.
  rewrite (substringFrom_add 11 pre ("-signed.apk" ++ post)).
  now rewrite E.
Qed.

End MoreNames.

(** X1. The original name can be read back from either derived name: for
    a name that contains [.apk], [alignApkFile] copies to and returns an
    aligned name, and [signFile] and [signApkFile] write to and return a
    signed name, both different from the input, such that replacing
    [-aligned.apk] by [.apk] in the aligned name, or [-signed.apk] by
    [.apk] in the signed name, gives the input name back. *)
Theorem X1_derived_names_round_trip (name : string) :
  JS.includes name ".apk" = true ->
  let aligned := JS.replace name ".apk" "-aligned.apk" in
  let signed := JS.replace name ".apk" "-signed.apk" in
  Derivation.AlignsTo name aligned
  /\ Derivation.SignsTo name signed
  /\ Derivation.PipelineDerives name aligned signed
  /\ aligned <> name
  /\ signed <> name
  /\ JS.replace aligned "-aligned.apk" ".apk" = name
  /\ JS.replace signed "-signed.apk" ".apk" = name.
Proof.
  intros H aligned signed.
  split; [apply alignApkFile_aligns|].
  split; [apply signFile_signs|].
  split; [apply signApkFile_derives|].
  assert (La := length_alignedName name H). assert (Ls := length_signedName name H).
  split; [intros E; apply (f_equal String.length) in E;
          unfold aligned in E; fold (Signing.alignedName name) in E; lia|].
  split; [intros E; apply (f_equal String.length) in E;
          unfold signed in E; fold (Signing.signedName name) in E; lia|].
  split.
  - exact (fromAligned_alignedName name H).
  - exact (fromSigned_signedName name H).
Qed.

Lemma X1_witness :
  JS.includes "a.apk.d/b.apk" ".apk" = true /\
  Signing.alignApkFile "a.apk.d/b.apk" "zipalign" Sample.world []
  = ([Exec (Signing.quoted "zipalign") ["-c"; "-v"; "4"; "a.apk.d/b.apk"];
      Exec (Signing.quoted "cp") ["a.apk.d/b.apk"; "a-aligned.apk.d/b.apk"]],
     Ok "a-aligned.apk.d/b.apk") /\
  JS.replace "a-aligned.apk.d/b.apk" "-aligned.apk" ".apk" = "a.apk.d/b.apk" /\
  JS.replace "a-signed.apk.d/b.apk" "-signed.apk" ".apk" = "a.apk.d/b.apk".
Proof.
  assert (H : JS.includes "a.apk.d/b.apk" ".apk" = true) by reflexivity.
  destruct (X1_derived_names_round_trip "a.apk.d/b.apk" H)
    as (Hal & _ & _ & _ & _ & Ha & Hs).
  split; [exact H|].
  split; [exact (Hal Sample.world [] "zipalign")|].
  split; [exact Ha | exact Hs].
Defined.

(** X2. Different inputs never write to the same output file.  For two
    input names, [alignApkFile] copies to and returns their aligned names
    and [signFile] and [signApkFile] write to and return their signed
    names; if the two aligned names are equal, or the two signed names,
    the two inputs are the same name.  So two runs that return the same
    path were given the same input. *)
Theorem X2_derived_names_are_injective (name1 name2 : string) :
  let aligned1 := JS.replace name1 ".apk" "-aligned.apk" in
  let aligned2 := JS.replace name2 ".apk" "-aligned.apk" in
  let signed1 := JS.replace name1 ".apk" "-signed.apk" in
  let signed2 := JS.replace name2 ".apk" "-signed.apk" in
  (Derivation.AlignsTo name1 aligned1 /\ Derivation.AlignsTo name2 aligned2)
  /\ (Derivation.SignsTo name1 signed1 /\ Derivation.SignsTo name2 signed2)
  /\ (Derivation.PipelineDerives name1 aligned1 signed1 /\
      Derivation.PipelineDerives name2 aligned2 signed2)
  /\ (aligned1 = aligned2 -> name1 = name2)
  /\ (signed1 = signed2 -> name1 = name2)
  /\ (forall (w1 w2 : World) (t1 t2 : list Event) (zipAlign1 zipAlign2 r : string),
         snd (Signing.alignApkFile name1 zipAlign1 w1 t1) = Ok r ->
         snd (Signing.alignApkFile name2 zipAlign2 w2 t2) = Ok r ->
         name1 = name2)
  /\ (forall (w1 w2 : World) (t1 t2 : list Event)
             (key1 key2 alias1 alias2 pass1 pass2 : string)
             (keyPass1 keyPass2 : option string) (r : string),
         snd (Signing.signApkFile name1 key1 alias1 pass1 keyPass1 w1 t1) = Ok r ->
         snd (Signing.signApkFile name2 key2 alias2 pass2 keyPass2 w2 t2) = Ok r ->
         name1 = name2).
Proof.
  intros aligned1 aligned2 signed1 signed2.
  assert (Ha : Signing.alignedName name1 = Signing.alignedName name2 -> name1 = name2).
  { intros E.
    destruct (JS.includes name1 ".apk") eqn:H1;
      destruct (JS.includes name2 ".apk") eqn:H2.
    - rewrite <- (fromAligned_alignedName name1 H1),
        <- (fromAligned_alignedName name2 H2). now rewrite E.
    - apply includes_alignedName in H1. rewrite E in H1.
      destruct (@names_without_apk name2 H2) as [Ea _]. rewrite Ea in H1. congruence.
    - apply includes_alignedName in H2. rewrite <- E in H2.
      destruct (@names_without_apk name1 H1) as [Ea _]. rewrite Ea in H2. congruence.
    - destruct (@names_without_apk name1 H1) as [Ea1 _].
      destruct (@names_without_apk name2 H2) as [Ea2 _]. congruence. }
  assert (Hs : Signing.signedName name1 = Signing.signedName name2 -> name1 = name2).
  { intros E.
    destruct (JS.includes name1 ".apk") eqn:H1;
      destruct (JS.includes name2 ".apk") eqn:H2.
    - rewrite <- (fromSigned_signedName name1 H1),
        <- (fromSigned_signedName name2 H2). now rewrite E.
    - apply includes_signedName in H1. rewrite E in H1.
      destruct (@names_without_apk name2 H2) as [_ Es]. rewrite Es in H1. congruence.
    - apply includes_signedName in H2. rewrite <- E in H2.
      destruct (@names_without_apk name1 H1) as [_ Es]. rewrite Es in H2. congruence.
    - destruct (@names_without_apk name1 H1) as [_ Es1].
      destruct (@names_without_apk name2 H2) as [_ Es2]. congruence. }
  assert (Halign : forall name w t zipAlign r,
             snd (Signing.alignApkFile name zipAlign w t) = Ok r ->
             r = Signing.alignedName name).
  { intros name w t zipAlign r. rewrite alignApkFile_run. cbv zeta.
    destruct (spawn w t _ _); [discriminate|].
    destruct (spawn w _ _ _); [discriminate|].
    cbn [snd]. congruence. }
  assert (Hsign : forall name w t key alias pass keyPass r,
             snd (Signing.signApkFile name key alias pass keyPass w t) = Ok r ->
             r = Signing.signedName name).
  { intros name w t key alias pass keyPass r.
    destruct (signApkFile_run w name key alias pass keyPass t)
      as [E | (k & e & _ & E)]; rewrite E; cbn [snd]; congruence. }
  split; [split; apply alignApkFile_aligns|].
  split; [split; apply signFile_signs|].
  split; [split; apply signApkFile_derives|].
  split; [exact Ha|]. split; [exact Hs|]. split.
  - intros w1 w2 t1 t2 z1 z2 r H1 H2. apply Ha.
    now rewrite <- (Halign _ _ _ _ _ H1), <- (Halign _ _ _ _ _ H2).
  - intros w1 w2 t1 t2 k1 k2 a1 a2 p1 p2 kp1 kp2 r H1 H2. apply Hs.
    now rewrite <- (Hsign _ _ _ _ _ _ _ _ H1), <- (Hsign _ _ _ _ _ _ _ _ H2).
Qed.

Lemma X2_witness :
  (snd (Signing.signApkFile "out/app.apk" "key.jks" "test_key" "android" None
                            Sample.world []) = Ok "out/app-signed.apk" /\
   snd (Signing.signApkFile "out/app.apk" "other.jks" "other_key" "secret"
                            (Some "secret") Sample.world [Debug "earlier"])
   = Ok "out/app-signed.apk") /\
  "out/app.apk" = "out/app.apk" /\
  Signing.alignApkFile "out/app.apk" "zipalign" Sample.world []
  = ([Exec (Signing.quoted "zipalign") ["-c"; "-v"; "4"; "out/app.apk"];
      Exec (Signing.quoted "cp") ["out/app.apk"; "out/app-aligned.apk"]],
     Ok "out/app-aligned.apk").
Proof.
  assert (H1 : snd (Signing.signApkFile "out/app.apk" "key.jks" "test_key" "android"
                                        None Sample.world [])
               = Ok "out/app-signed.apk") by reflexivity.
  assert (H2 : snd (Signing.signApkFile "out/app.apk" "other.jks" "other_key" "secret"
                                        (Some "secret") Sample.world [Debug "earlier"])
               = Ok "out/app-signed.apk") by reflexivity.
  destruct (X2_derived_names_are_injective "out/app.apk" "out/app.apk")
    as ([Hal _] & _ & _ & _ & _ & _ & Hruns).
  split; [now split|].
  split; [exact (Hruns Sample.world Sample.world [] [Debug "earlier"]
                       "key.jks" "other.jks" "test_key" "other_key" "android" "secret"
                       None (Some "secret") "out/app-signed.apk" H1 H2)|].
  exact (Hal Sample.world [] "zipalign").
Defined.



(** ** The stages of the APK pipeline *)

Section StagesOfTheApkPipeline.

Variable w : World.
Variables apkFile signingKeyFile alias keyStorePassword : string.
Variable keyPassword : option string.

Local Abbreviation check := (Spec.checkProcess (Spec.zipAlignPath w) apkFile).
Local Abbreviation copy := (Spec.copyProcess apkFile).
Local Abbreviation sign :=
  (Spec.signProcess w apkFile signingKeyFile alias keyStorePassword keyPassword).
Local Abbreviation verify := (Spec.verifyProcess w apkFile).

(** With the build tools resolved, a run goes through check, copy, sign
    and verify, stops at the first process that fails, reports its error
    and throws it. *)
Lemma signApkFile_stages (t : list Event) :
  JS.truthy_opt (env w "ANDROID_HOME") = true ->
  existsSync w (Spec.expectedBuildToolsPath w) = true ->
  Signing.signApkFile apkFile signingKeyFile alias keyStorePassword keyPassword w t
  = match Stages.checkOutcome w t apkFile with
    | Some e => ((Stages.beforeCheck w t ++ [check; Spec.apkFailure e])%list, Throw e)
    | None =>
    match Stages.copyOutcome w t apkFile with
    | Some e => ((Stages.beforeCopy w t apkFile ++ [copy; Spec.apkFailure e])%list, Throw e)
    | None =>
    match Stages.signOutcome w t apkFile signingKeyFile alias keyStorePassword
                             keyPassword with
    | Some e => ((Stages.beforeSign w t apkFile ++ [sign; Spec.apkFailure e])%list, Throw e)
    | None =>
    match Stages.verifyOutcome w t apkFile signingKeyFile alias keyStorePassword
                               keyPassword with
    | Some e =>
        ((Stages.beforeVerify w t apkFile signingKeyFile alias keyStorePassword
                              keyPassword ++ [verify; Spec.apkFailure e])%list, Throw e)
    | None =>
        ((Stages.beforeVerify w t apkFile signingKeyFile alias keyStorePassword
                              keyPassword ++ [verify])%list,
         Ok (Signing.signedName apkFile))
    end end end end.
Proof.
  intros Hhome Hdir.
  unfold Stages.checkOutcome, Stages.copyOutcome, Stages.signOutcome,
    Stages.verifyOutcome, Stages.beforeVerify, Stages.beforeSign, Stages.beforeCopy,
    Stages.beforeCheck.
  unfold Signing.signApkFile, try_catch, bind, core_debug, core_setFailed, emit,
    path_join, throw, ret, Signing.verifySignedFile.
  rewrite getBuildToolsPath_run, Hhome, Hdir. cbv beta iota. cbn [negb].
  fold (Spec.zipAlignPath w). fold (Spec.apkSignerPath w).
  rewrite alignApkFile_run. cbv zeta.
  rewrite <- !app_assoc. cbn [app].
  destruct (spawn w _ (Signing.quoted (Spec.zipAlignPath w)) _);
    [cbv beta iota; rewrite <- !app_assoc; reflexivity|].
  destruct (spawn w _ (Signing.quoted "cp") _);
    [cbv beta iota; rewrite <- !app_assoc; reflexivity|].
  cbv beta iota. rewrite signFile_run. cbv zeta.
  rewrite <- !app_assoc. cbn [app].
  fold (Signing.signedName apkFile).
  change (Exec (Signing.quoted (Spec.apkSignerPath w))
               (Signing.signFile_args (Signing.alignedName apkFile) signingKeyFile alias
                                      keyStorePassword keyPassword
                                      (Signing.signedName apkFile)))
    with sign.
  destruct (spawn w _ (Signing.quoted (Spec.apkSignerPath w)) _);
    [cbv beta iota; rewrite <- !app_assoc; reflexivity|].
  cbv beta iota. rewrite exec_exec_run. rewrite <- !app_assoc. cbn [app].
  destruct (spawn w _ (Signing.quoted (Spec.apkSignerPath w)) _);
    cbv beta iota; rewrite <- ?app_assoc; reflexivity.
Qed.

End StagesOfTheApkPipeline.

(** X4. For an original file [stem ++ ".apk" ++ rest] whose [stem] has no
    [.apk], and an extension without a dollar sign, [signFile] writes to
    [stem ++ fileExtension ++ rest]: the extension is put in literally.  It
    returns that name when the signer exits with 0 and throws the signer's
    error otherwise. *)
Theorem X4_signFile_literal_extension
        (w : World) (t : list Event)
        (signerPath fileToSign signingKeyFile alias keyStorePassword : string)
        (keyPassword : option string) (stem rest fileExtension : string) :
  JS.includes stem ".apk" = false ->
  JS.includes fileExtension "$" = false ->
  let signedFile := stem ++ fileExtension ++ rest in
  let args := Signing.signFile_args fileToSign signingKeyFile alias keyStorePassword
                                    keyPassword signedFile in
  Signing.signFile signerPath fileToSign signingKeyFile alias keyStorePassword
                   keyPassword (stem ++ ".apk" ++ rest) fileExtension w t
  = ((t ++ [Exec (Signing.quoted signerPath) args])%list,
     match spawn w t (Signing.quoted signerPath) args with
     | None => Ok signedFile
     | Some e => Throw e
     end).
Proof.
  intros Hstem Hext signedFile args.
  rewrite signFile_run. cbv zeta.
  rewrite replace_apk_stem by exact Hstem.
  rewrite GetSubstitution_literal by exact Hext.
  reflexivity.
Qed.

Lemma X4_witness :
  (JS.includes "out/app" ".apk" = false /\ JS.includes "-release.apk" "$" = false) /\
  Signing.signFile "apksigner" "out/app-aligned.apk" "key.jks" "test_key" "android"
                   None "out/app.apk" "-release.apk" Sample.world []
  = ([Exec (Signing.quoted "apksigner")
           ["sign"; "--ks"; "key.jks"; "--ks-key-alias"; "test_key";
            "--ks-pass"; "pass:android"; "--out"; "out/app-release.apk";
            "out/app-aligned.apk"]],
     Ok "out/app-release.apk").
Proof.
  assert (Hstem : JS.includes "out/app" ".apk" = false) by reflexivity.
  assert (Hext : JS.includes "-release.apk" "$" = false) by reflexivity.
  split; [now split|].
  exact (X4_signFile_literal_extension
           Sample.world [] "apksigner" "out/app-aligned.apk" "key.jks" "test_key"
           "android" None "out/app" "" "-release.apk" Hstem Hext).
Defined.



(** X6. With the build tools resolved, the APK pipeline stops at the first
    process that fails and throws that process's error: a failed check
    leaves the file uncopied and unsigned, a failed copy leaves it
    unsigned, a failed signing leaves it unverified, and a failed
    verification makes the call fail although the signed file was written.
    Only when all four exit with 0 is the signed name returned. *)
Theorem X6_apk_pipeline_stops_at_first_failure
        (w : World) (t : list Event)
        (apkFile signingKeyFile alias keyStorePassword : string)
        (keyPassword : option string) :
  JS.truthy_opt (env w "ANDROID_HOME") = true ->
  existsSync w (Spec.expectedBuildToolsPath w) = true ->
  let run := Signing.signApkFile apkFile signingKeyFile alias keyStorePassword
                                 keyPassword w t in
  let check := Spec.checkProcess (Spec.zipAlignPath w) apkFile in
  let copy := Spec.copyProcess apkFile in
  let sign := Spec.signProcess w apkFile signingKeyFile alias keyStorePassword
                               keyPassword in
  let verify := Spec.verifyProcess w apkFile in
  match Stages.checkOutcome w t apkFile with
  | Some e => snd run = Throw e /\ spawned (Spec.emitted t (fst run)) = [check]
  | None =>
  match Stages.copyOutcome w t apkFile with
  | Some e => snd run = Throw e /\ spawned (Spec.emitted t (fst run)) = [check; copy]
  | None =>
  match Stages.signOutcome w t apkFile signingKeyFile alias keyStorePassword
                           keyPassword with
  | Some e =>
      snd run = Throw e /\ spawned (Spec.emitted t (fst run)) = [check; copy; sign]
  | None =>
  match Stages.verifyOutcome w t apkFile signingKeyFile alias keyStorePassword
                             keyPassword with
  | Some e =>
      snd run = Throw e
      /\ spawned (Spec.emitted t (fst run)) = [check; copy; sign; verify]
  | None =>
      snd run = Ok (Signing.signedName apkFile)
      /\ spawned (Spec.emitted t (fst run)) = [check; copy; sign; verify]
  end end end end.
Proof.
  intros Hhome Hdir run check copy sign verify.
  unfold run. rewrite signApkFile_stages by assumption.
  unfold Stages.beforeVerify, Stages.beforeSign, Stages.beforeCopy, Stages.beforeCheck.
  destruct (Stages.checkOutcome w t apkFile);
    [cbn [fst snd]; rewrite <- !app_assoc, emitted_app; split; reflexivity|].
  destruct (Stages.copyOutcome w t apkFile);
    [cbn [fst snd]; rewrite <- !app_assoc, emitted_app; split; reflexivity|].
  destruct (Stages.signOutcome w t apkFile signingKeyFile alias keyStorePassword
                               keyPassword);
    [cbn [fst snd]; rewrite <- !app_assoc, emitted_app; split; reflexivity|].
  destruct (Stages.verifyOutcome w t apkFile signingKeyFile alias keyStorePassword
                                 keyPassword);
    cbn [fst snd]; rewrite <- !app_assoc, emitted_app; split; reflexivity.
Qed.

Lemma X6_witness :
  (JS.truthy_opt (env (Faulty.world "verify") "ANDROID_HOME") = true /\
   existsSync (Faulty.world "verify")
              (Spec.expectedBuildToolsPath (Faulty.world "verify")) = true) /\
  snd (Signing.signApkFile "app.apk" "key.jks" "test_key" "android" None
                           (Faulty.world "verify") [])
  = Throw Faulty.exitCode1 /\
  snd (Signing.signApkFile "app.apk" "key.jks" "test_key" "android" None
                           (Faulty.world "-c") [])
  = Throw Faulty.exitCode1 /\
  spawned (Spec.emitted [] (fst (Signing.signApkFile "app.apk" "key.jks" "test_key"
                                                     "android" None
                                                     (Faulty.world "-c") [])))
  = [Exec (Signing.quoted "/sdk/build-tools/35.0.0/zipalign")
          ["-c"; "-v"; "4"; "app.apk"]].
Proof.
  assert (Hhome : forall first,
             JS.truthy_opt (env (Faulty.world first) "ANDROID_HOME") = true)
    by reflexivity.
  assert (Hdir : forall first,
             existsSync (Faulty.world first)
                        (Spec.expectedBuildToolsPath (Faulty.world first)) = true)
    by reflexivity.
  split; [split; [apply Hhome | apply Hdir]|].
  split; [|split].
  - exact (proj1 (@X6_apk_pipeline_stops_at_first_failure
                    (Faulty.world "verify") [] "app.apk" "key.jks" "test_key"
                    "android" None (Hhome "verify") (Hdir "verify"))).
  - exact (proj1 (@X6_apk_pipeline_stops_at_first_failure
                    (Faulty.world "-c") [] "app.apk" "key.jks" "test_key"
                    "android" None (Hhome "-c") (Hdir "-c"))).
  - exact (proj2 (@X6_apk_pipeline_stops_at_first_failure
                    (Faulty.world "-c") [] "app.apk" "key.jks" "test_key"
                    "android" None (Hhome "-c") (Hdir "-c"))).
Defined.

(** X7. [signApkFile] reports a failure through [core.setFailed] exactly
    when it throws: a run that throws [e] records
    [Failed to sign APK file: <message of e>] as its last event and no
    other failure, and a run that returns records none. *)
Theorem X7_apk_failure_is_reported_once_and_last
        (w : World) (t : list Event)
        (apkFile signingKeyFile alias keyStorePassword : string)
        (keyPassword : option string) :
  let run := Signing.signApkFile apkFile signingKeyFile alias keyStorePassword
                                 keyPassword w t in
  let events := Spec.emitted t (fst run) in
  match snd run with
  | Ok _ => Stages.failures events = []
  | Throw e =>
      exists before,
        events = (before ++ [SetFailed ("Failed to sign APK file: " ++ message e)])%list
        /\ Stages.failures before = []
  end.
Proof.
  intros run events. unfold events, run.
  destruct (signApkFile_run w apkFile signingKeyFile alias keyStorePassword
                            keyPassword t) as [E | (k & e & Hk & E)];
    rewrite E; cbn [fst snd]; rewrite emitted_app.
  - reflexivity.
  - exists (firstn k (Spec.apkScript w apkFile signingKeyFile alias keyStorePassword
                                     keyPassword)).
    split; [reflexivity|].
    cbn [In] in Hk. destruct Hk as [<-|[<-|[<-|[<-|[<-|[]]]]]]; reflexivity.
Qed.

(** X8. A path returned by [signApkFile] has gone through the whole
    pipeline: if the call returns, then [ANDROID_HOME] was set, the
    build-tools directory existed, the check, the copy, the signing and the
    verification all exited with 0, and the path returned is the signed
    name, the one that was verified. *)
Theorem X8_returned_path_was_checked_signed_and_verified
        (w : World) (t : list Event)
        (apkFile signingKeyFile alias keyStorePassword : string)
        (keyPassword : option string) (r : string) :
  snd (Signing.signApkFile apkFile signingKeyFile alias keyStorePassword
                           keyPassword w t) = Ok r ->
  r = JS.replace apkFile ".apk" "-signed.apk"
  /\ JS.truthy_opt (env w "ANDROID_HOME") = true
  /\ existsSync w (Spec.expectedBuildToolsPath w) = true
  /\ Stages.checkOutcome w t apkFile = None
  /\ Stages.copyOutcome w t apkFile = None
  /\ Stages.signOutcome w t apkFile signingKeyFile alias keyStorePassword keyPassword
     = None
  /\ Stages.verifyOutcome w t apkFile signingKeyFile alias keyStorePassword keyPassword
     = None.
Proof.
  intros Hret.
  destruct (JS.truthy_opt (env w "ANDROID_HOME")) eqn:Hhome.
  2:{ exfalso. revert Hret.
      unfold Signing.signApkFile, try_catch, bind, core_debug, core_setFailed, emit,
        throw.
      rewrite getBuildToolsPath_run, Hhome. discriminate. }
  destruct (existsSync w (Spec.expectedBuildToolsPath w)) eqn:Hdir.
  2:{ exfalso. revert Hret.
      unfold Signing.signApkFile, try_catch, bind, core_debug, core_setFailed, emit,
        throw.
      rewrite getBuildToolsPath_run, Hhome, Hdir. discriminate. }
  rewrite signApkFile_stages in Hret by assumption.
  destruct (Stages.checkOutcome w t apkFile); [discriminate Hret|].
  destruct (Stages.copyOutcome w t apkFile); [discriminate Hret|].
  destruct (Stages.signOutcome w t apkFile signingKeyFile alias keyStorePassword
                               keyPassword); [discriminate Hret|].
  destruct (Stages.verifyOutcome w t apkFile signingKeyFile alias keyStorePassword
                                 keyPassword); [discriminate Hret|].
  cbn [snd] in Hret. injection Hret as <-. repeat split; reflexivity.
Qed.

Lemma X8_witness :
  snd (Signing.signApkFile "app.apk" "key.jks" "test_key" "android" None
                           Sample.world [Debug "earlier"]) = Ok "app-signed.apk" /\
  Stages.verifyOutcome Sample.world [Debug "earlier"] "app.apk" "key.jks" "test_key"
                       "android" None = None.
Proof.
  assert (Hret : snd (Signing.signApkFile "app.apk" "key.jks" "test_key" "android" None
                                          Sample.world [Debug "earlier"])
                 = Ok "app-signed.apk") by reflexivity.
  split; [exact Hret|].
  exact (proj2 (proj2 (proj2 (proj2 (proj2 (proj2
           (@X8_returned_path_was_checked_signed_and_verified
              Sample.world [Debug "earlier"] "app.apk" "key.jks" "test_key" "android"
              None "app-signed.apk" Hret))))))).
Defined.

(** X9. [signAabFile] reports a failure exactly when it throws, once and
    last, as [Failed to sign AAB file: <message>].  When jarsigner is not
    on the PATH it throws the lookup's error without spawning anything;
    when the jarsigner process fails it throws that process's error, and
    jarsigner is the only process spawned. *)
Theorem X9_aab_failures
        (w : World) (t : list Event)
        (aabFile signingKeyFile alias keyStorePassword : string)
        (keyPassword : option string) :
  let run := Signing.signAabFile aabFile signingKeyFile alias keyStorePassword
                                 keyPassword w t in
  let events := Spec.emitted t (fst run) in
  let args := Signing.signAabFile_args aabFile signingKeyFile alias keyStorePassword
                                       keyPassword in
  match snd run with
  | Ok _ => Stages.failures events = []
  | Throw e =>
      exists before,
        events = (before ++ [SetFailed ("Failed to sign AAB file: " ++ message e)])%list
        /\ Stages.failures before = []
  end
  /\ (forall e, which w "jarsigner" = inl e ->
                snd run = Throw e /\ spawned events = [])
  /\ (forall jarSignerPath e,
         which w "jarsigner" = inr jarSignerPath ->
         spawn w (t ++ [Debug "Signing AAB file";
                        Debug ("Found 'jarsigner' @ " ++ jarSignerPath)])
               (Signing.quoted jarSignerPath) args = Some e ->
         snd run = Throw e
         /\ spawned events = [Exec (Signing.quoted jarSignerPath) args]).
Proof.
  intros run events args. unfold events, run.
  rewrite signAabFile_run. cbv zeta. fold args.
  split; [|split].
  - destruct (which w "jarsigner") as [e|p].
    + cbn [fst snd]. rewrite emitted_app. now exists [Debug "Signing AAB file"].
    + destruct (spawn w _ _ _) as [e|]; cbn [fst snd]; rewrite emitted_app.
      * now exists [Debug "Signing AAB file"; Debug ("Found 'jarsigner' @ " ++ p);
                    Exec (Signing.quoted p) args].
      * reflexivity.
  - intros e He. rewrite He. cbn [fst snd]. rewrite emitted_app. split; reflexivity.
  - intros p e Hp He. rewrite Hp, He. cbn [fst snd]. rewrite emitted_app.
    split; reflexivity.
Qed.

Lemma X9_witness :
  (which Faulty.world_no_jarsigner "jarsigner"
   = inl (mkError "Unable to locate executable file: jarsigner") /\
   which (Faulty.world "-keystore") "jarsigner" = inr "/usr/bin/jarsigner" /\
   spawn (Faulty.world "-keystore")
         [Debug "Signing AAB file"; Debug "Found 'jarsigner' @ /usr/bin/jarsigner"]
         (Signing.quoted "/usr/bin/jarsigner")
         (Signing.signAabFile_args "app.aab" "key.jks" "test_key" "android" None)
   = Some Faulty.exitCode1) /\
  Signing.signAabFile "app.aab" "key.jks" "test_key" "android" None
                      Faulty.world_no_jarsigner []
  = ([Debug "Signing AAB file";
      SetFailed "Failed to sign AAB file: Unable to locate executable file: jarsigner"],
     Throw (mkError "Unable to locate executable file: jarsigner")) /\
  snd (Signing.signAabFile "app.aab" "key.jks" "test_key" "android" None
                           (Faulty.world "-keystore") [])
  = Throw Faulty.exitCode1.
Proof.
  assert (Hmissing : which Faulty.world_no_jarsigner "jarsigner"
                     = inl (mkError "Unable to locate executable file: jarsigner"))
    by reflexivity.
  assert (Hfound : which (Faulty.world "-keystore") "jarsigner"
                   = inr "/usr/bin/jarsigner") by reflexivity.
  assert (Hfails : spawn (Faulty.world "-keystore")
                         [Debug "Signing AAB file";
                          Debug "Found 'jarsigner' @ /usr/bin/jarsigner"]
                         (Signing.quoted "/usr/bin/jarsigner")
                         (Signing.signAabFile_args "app.aab" "key.jks" "test_key"
                                                   "android" None)
                   = Some Faulty.exitCode1) by reflexivity.
  split; [now repeat split|]. split.
  { assert (H := proj1 (proj2 (@X9_aab_failures
                                 Faulty.world_no_jarsigner [] "app.aab" "key.jks"
                                 "test_key" "android" None))
                       (mkError "Unable to locate executable file: jarsigner")
                       Hmissing).
    reflexivity. }
  exact (proj1 (proj2 (proj2 (@X9_aab_failures
                                (Faulty.world "-keystore") [] "app.aab" "key.jks"
                                "test_key" "android" None))
                      "/usr/bin/jarsigner" Faulty.exitCode1 Hfound Hfails)).
Defined.

(** X10. The build-tools version is the [buildToolsVersion] input when it
    is not empty, whatever the environment says; else the
    [ANDROID_BUILD_TOOLS_VERSION] variable when it is set and not empty;
    else [35.0.0].  When the directory of that version exists under
    [ANDROID_HOME], it is the path returned, and nothing is recorded. *)
Theorem X10_build_tools_version_precedence
        (w : World) (t : list Event) (sdkRoot : string) :
  env w "ANDROID_HOME" = Some sdkRoot ->
  sdkRoot <> "" ->
  let input := getInput w "buildToolsVersion" in
  let fallback := env w "ANDROID_BUILD_TOOLS_VERSION" in
  let directory version := join w sdkRoot ("build-tools/" ++ version) in
  (input <> "" ->
   existsSync w (directory input) = true ->
   Signing.getBuildToolsPath w t = (t, Ok (directory input)))
  /\ (input = "" ->
      forall version, fallback = Some version -> version <> "" ->
      existsSync w (directory version) = true ->
      Signing.getBuildToolsPath w t = (t, Ok (directory version)))
  /\ (input = "" ->
      fallback = None \/ fallback = Some "" ->
      existsSync w (directory "35.0.0") = true ->
      Signing.getBuildToolsPath w t = (t, Ok (directory "35.0.0"))).
Proof.
  intros Hhome Hroot input fallback directory.
  assert (Hrun : forall version,
             Spec.buildToolsVersion w = version ->
             existsSync w (directory version) = true ->
             Signing.getBuildToolsPath w t = (t, Ok (directory version))).
  { intros version Hv Hdir. rewrite getBuildToolsPath_run.
    unfold Spec.expectedBuildToolsPath. rewrite Hhome, Hv.
    cbn [JS.truthy_opt Signing.narrowed]. rewrite truthy_nonempty by exact Hroot.
    fold (directory version). now rewrite Hdir. }
  split; [|split].
  - intros Hin. apply Hrun. unfold Spec.buildToolsVersion, JS.or3. fold input.
    now rewrite truthy_nonempty by exact Hin.
  - intros Hin version Hfb Hv. apply Hrun. unfold Spec.buildToolsVersion, JS.or3.
    fold input. fold fallback. rewrite Hin, Hfb. cbn [JS.truthy].
    now rewrite truthy_nonempty by exact Hv.
  - intros Hin Hfb. apply Hrun. unfold Spec.buildToolsVersion, JS.or3.
    fold input. fold fallback. rewrite Hin. now destruct Hfb as [-> | ->].
Qed.

Lemma X10_witness :
  (env Faulty.world_two_versions "ANDROID_HOME" = Some "/sdk" /\
   "/sdk" <> "" /\
   getInput Faulty.world_two_versions "buildToolsVersion" <> "" /\
   env Faulty.world_two_versions "ANDROID_BUILD_TOOLS_VERSION" = Some "34.0.0" /\
   existsSync Faulty.world_two_versions "/sdk/build-tools/33.0.2" = true) /\
  Signing.getBuildToolsPath Faulty.world_two_versions []
  = ([], Ok "/sdk/build-tools/33.0.2").
Proof.
  assert (Hhome : env Faulty.world_two_versions "ANDROID_HOME" = Some "/sdk")
    by reflexivity.
  assert (Hroot : "/sdk" <> "") by discriminate.
  assert (Hin : getInput Faulty.world_two_versions "buildToolsVersion" <> "")
    by discriminate.
  assert (Hdir : existsSync Faulty.world_two_versions "/sdk/build-tools/33.0.2" = true)
    by reflexivity.
  split; [repeat split; assumption || reflexivity|].
  exact (proj1 (@X10_build_tools_version_precedence
                  Faulty.world_two_versions [] "/sdk" Hhome Hroot) Hin Hdir).
Defined.

(** X11. An [ANDROID_HOME] that is set to the empty string counts as
    unset: resolving the build tools throws
    [ANDROID_HOME environment variable is not set.] whatever exists on
    disk, and [signApkFile] throws it without spawning a process. *)
Theorem X11_empty_android_home_counts_as_unset
        (w : World) (t : list Event)
        (apkFile signingKeyFile alias keyStorePassword : string)
        (keyPassword : option string) :
  env w "ANDROID_HOME" = Some "" ->
  let notSet := mkError "ANDROID_HOME environment variable is not set." in
  let run := Signing.signApkFile apkFile signingKeyFile alias keyStorePassword
                                 keyPassword w t in
  Signing.getBuildToolsPath w t = (t, Throw notSet)
  /\ snd run = Throw notSet
  /\ spawned (Spec.emitted t (fst run)) = [].
Proof.
  intros Hhome notSet run.
  assert (Htools : forall t', Signing.getBuildToolsPath w t' = (t', Throw notSet)).
  { intros t'. rewrite getBuildToolsPath_run, Hhome. reflexivity. }
  assert (Hrun : run = ((t ++ [Debug "Zipaligning APK file";
                               Spec.apkFailure notSet])%list, Throw notSet)).
  { unfold run, Signing.signApkFile, try_catch, bind, core_debug, core_setFailed,
      emit, throw. rewrite Htools. cbv beta iota. rewrite <- app_assoc. reflexivity. }
  split; [apply Htools|]. rewrite Hrun. cbn [fst snd]. rewrite emitted_app.
  split; reflexivity.
Qed.

Lemma X11_witness :
  (env Faulty.world_empty_home "ANDROID_HOME" = Some "" /\
   existsSync Faulty.world_empty_home "/build-tools/35.0.0" = true) /\
  Signing.getBuildToolsPath Faulty.world_empty_home []
  = ([], Throw (mkError "ANDROID_HOME environment variable is not set.")).
Proof.
  assert (Hhome : env Faulty.world_empty_home "ANDROID_HOME" = Some "") by reflexivity.
  split; [split; [exact Hhome | reflexivity]|].
  exact (proj1 (@X11_empty_android_home_counts_as_unset
                  Faulty.world_empty_home [] "app.apk" "key.jks" "test_key" "android"
                  None Hhome)).
Defined.
